(** * BuzzGuard feedback backend: a shallow embedding in Rocq

    Sources embedded here:
    - [models/Feedback.js] (second, current version: the one with [rating]
      and the asynchronous [getStats]): the Mongoose schema, its setters
      ([trim], [lowercase]), defaults and validators, the pre-save auto-tag
      hook, [getPublicFeedback] and [getStats];
    - [routes/feedback.js] (reproduced inside DEPLOYMENT_GUIDE.md): the Joi
      validation schema, [POST /], [GET /], [GET /recent] and
      [DELETE /:id].

    A string is a sequence of characters of the code points U+0000 to
    U+00FF (ASCII and Latin-1 Supplement), one [ascii] byte each: on this
    alphabet a character is one UTF-16 code unit, NFC normalisation changes
    nothing, and JavaScript's [toLowerCase], [trim] and [includes] are
    modelled on it.  The document store is the
    collection in insertion (natural) order; time is in milliseconds since
    the epoch, as [Date.now()] gives it.  JavaScript numbers that the code
    computes with fractions ([$avg], [/], [*], [toFixed], [Math.round]) are
    IEEE-754 binary64 values, modelled by Rocq's primitive floats. *)

From Stdlib Require Import ZArith List String Ascii Bool Lia Floats.
Import ListNotations.
Open Scope string_scope.
Open Scope Z_scope.

(** ** JavaScript string helpers (code points up to U+00FF) *)

Module JsString.

(** Characters removed by [String.prototype.trim]: TAB, LF, VT, FF, CR,
    SPACE and NO-BREAK SPACE (byte 160). *)
Definition is_ws (c : ascii) : bool :=
  let n := nat_of_ascii c in
  (Nat.eqb n 9 || Nat.eqb n 10 || Nat.eqb n 11 || Nat.eqb n 12
   || Nat.eqb n 13 || Nat.eqb n 32 || Nat.eqb n 160)%bool.

Fixpoint trim_start (s : string) : string :=
  match s with
  | EmptyString => EmptyString
  | String c r => if is_ws c then trim_start r else s
  end.

Fixpoint rev_string (s : string) : string :=
  match s with
  | EmptyString => EmptyString
  | String c r => rev_string r ++ String c EmptyString
  end.

(** [s.trim()] *)
Definition trim (s : string) : string :=
  rev_string (trim_start (rev_string (trim_start s))).

(** Unicode's lowercase mapping on the alphabet: A-Z, and the Latin-1
    capitals U+00C0 to U+00DE except the sign U+00D7. *)
Definition lower_char (c : ascii) : ascii :=
  let n := nat_of_ascii c in
  if (Nat.leb 65 n && Nat.leb n 90
      || Nat.leb 192 n && Nat.leb n 222 && negb (Nat.eqb n 215))%bool
  then ascii_of_nat (n + 32) else c.

(** [s.toLowerCase()] *)
Fixpoint toLowerCase (s : string) : string :=
  match s with
  | EmptyString => EmptyString
  | String c r => String (lower_char c) (toLowerCase r)
  end.

Fixpoint startsWith (s p : string) : bool :=
  match p, s with
  | EmptyString, _ => true
  | String c p', String d s' => (Ascii.eqb c d && startsWith s' p')%bool
  | String _ _, EmptyString => false
  end.

(** [s.includes(p)] *)
Fixpoint includes (s p : string) : bool :=
  (startsWith s p ||
   match s with
   | EmptyString => false
   | String _ r => includes r p
   end)%bool.

End JsString.

Import JsString.

(** ** The Feedback document (models/Feedback.js) *)

(** A stored document.  [_id] is the ObjectId (an integer here), and
    [createdAt] the timestamp added by [timestamps: true].  The optional
    [response] sub-document is never written by the code embedded here and
    is left out. *)
Record Feedback := mkFeedback {
  _id : Z;
  name : string;
  email : string;
  contactNumber : option string;
  message : string;
  rating : Z;
  status : string;
  ipAddress : option string;
  userAgent : option string;
  isPublic : bool;
  priority : string;
  tags : list string;
  createdAt : Z
}.

Definition set_priority (p : string) (d : Feedback) : Feedback :=
  mkFeedback d.(_id) d.(name) d.(email) d.(contactNumber) d.(message)
    d.(rating) d.(status) d.(ipAddress) d.(userAgent) d.(isPublic) p
    d.(tags) d.(createdAt).

Definition set_tags (t : list string) (d : Feedback) : Feedback :=
  mkFeedback d.(_id) d.(name) d.(email) d.(contactNumber) d.(message)
    d.(rating) d.(status) d.(ipAddress) d.(userAgent) d.(isPublic)
    d.(priority) t d.(createdAt).

(** [[...new Set(xs)]]: duplicates removed, first occurrences kept in
    order. *)
Fixpoint set_dedup_from (seen : list string) (xs : list string) : list string :=
  match xs with
  | [] => []
  | x :: r =>
      if existsb (String.eqb x) seen then set_dedup_from seen r
      else x :: set_dedup_from (x :: seen) r
  end.

Definition set_dedup (xs : list string) : list string := set_dedup_from [] xs.

(** The pre-save auto-tag hook, lines 271-301.  [isNew] is Mongoose's
    flag; [this.message] is truthy when it is a non-empty string. *)
Definition autoTag (isNew : bool) (d : Feedback) : Feedback :=
  if (isNew && negb (String.eqb d.(message) ""))%bool then
    let message := toLowerCase d.(message) in
    let inc := includes message in
    let '(autoTags, p) :=
      ([] : list string, d.(priority)) in
    let '(autoTags, p) :=
      if (inc "bug" || inc "error" || inc "issue")%bool
      then (app autoTags ["bug-report"], "high") else (autoTags, p) in
    let autoTags :=
      if (inc "feature" || inc "suggestion" || inc "improve")%bool
      then app autoTags ["feature-request"] else autoTags in
    let autoTags :=
      if (inc "app" || inc "mobile")%bool
      then app autoTags ["mobile-app"] else autoTags in
    let autoTags :=
      if (inc "device" || inc "esp32" || inc "hardware")%bool
      then app autoTags ["hardware"] else autoTags in
    let autoTags :=
      if (inc "great" || inc "awesome" || inc "love")%bool
      then app autoTags ["positive"] else autoTags in
    let '(autoTags, p) :=
      if (inc "problem" || inc "difficult" || inc "hate")%bool
      then (app autoTags ["negative"], "high") else (autoTags, p) in
    set_tags (set_dedup (app d.(tags) autoTags)) (set_priority p d)
  else d.

(** ** JSON values and objects *)

Set Warnings "-register-all -inexact-float".

Inductive JVal :=
| JNull
| JBool (b : bool)
| JNum (z : Z)
| JStr (s : string)
| JArr (l : list JVal).

(** A JSON object as its list of properties.  [JSON.parse] keeps the last
    of duplicated keys, so a lookup takes the last binding. *)
Definition JObject := list (string * JVal).

Definition prop (o : JObject) (k : string) : option JVal :=
  option_map snd (find (fun kv => String.eqb (fst kv) k) (rev o)).

Definition str_prop (o : JObject) (k : string) : option string :=
  match prop o k with Some (JStr s) => Some s | _ => None end.

(** ** Character classes *)

Module Chars.

Definition code (c : ascii) : nat := nat_of_ascii c.
Definition is_digit (c : ascii) : bool := Nat.leb 48 (code c) && Nat.leb (code c) 57.
Definition is_upper (c : ascii) : bool := Nat.leb 65 (code c) && Nat.leb (code c) 90.
Definition is_lower (c : ascii) : bool := Nat.leb 97 (code c) && Nat.leb (code c) 122.
Definition is_alpha (c : ascii) : bool := is_upper c || is_lower c.
Definition is_alnum (c : ascii) : bool := is_alpha c || is_digit c.
(** the regular-expression class [\w] *)
Definition is_word (c : ascii) : bool := is_alnum c || Nat.eqb (code c) 95.
Definition is_char (n : nat) (c : ascii) : bool := Nat.eqb (code c) n.
(** RFC 5322 [atext]: letters, digits and [!#$%&'*+-/=?^_`{|}~] *)
Definition is_atext (c : ascii) : bool :=
  is_alnum c ||
  existsb (fun n => Nat.eqb (code c) n)
    [33; 35; 36; 37; 38; 39; 42; 43; 45; 47; 61; 63; 94; 95; 96; 123; 124; 125; 126]%nat.

Fixpoint all_chars (p : ascii -> bool) (s : string) : bool :=
  match s with
  | EmptyString => true
  | String c r => p c && all_chars p r
  end.

Fixpoint count_char (n : nat) (s : string) : nat :=
  match s with
  | EmptyString => 0
  | String c r => (if is_char n c then 1 else 0) + count_char n r
  end%nat.

(** [s.split(c)] for a one-character separator *)
Fixpoint split_on (n : nat) (s : string) : list string :=
  match s with
  | EmptyString => [EmptyString]
  | String c r =>
      if is_char n c then EmptyString :: split_on n r
      else match split_on n r with
           | [] => [String c EmptyString]
           | w :: ws => String c w :: ws
           end
  end.

Fixpoint last_str (l : list string) : string :=
  match l with [] => EmptyString | [x] => x | _ :: r => last_str r end.

Fixpoint removelast_str (l : list string) : list string :=
  match l with [] => [] | [_] => [] | x :: r => x :: removelast_str r end.

End Chars.

Import Chars.

(** ** Joi's [string().email()] (library @sideway/address, default options)

    The address is split at ['@'] into exactly two parts; the whole address
    has at most 254 characters and the local part at most 64 bytes in
    UTF-8; the local part is a dot-separated list of non-empty words, each
    character of which is [atext] or, [allowUnicode] being on by default,
    any character above U+007F (its UTF-8 encoding matches the library's
    [atomRx]); the domain has
    at most 256 characters, does not end with a dot and has at least two
    labels, each of 1 to 63 characters, letters, digits and inner hyphens,
    the top-level label starting with a letter.  The library's list of IANA
    top-level domains is represented by: the top-level label is made of at
    least two letters.  A domain holding a character above U+007F is
    mapped by the URL parser (IDNA, punycode) before these checks; that
    conversion is not embedded, and the labels' character check refuses
    such a domain here. *)
Fixpoint last_char (s : string) : option ascii :=
  match s with
  | EmptyString => None
  | String c EmptyString => Some c
  | String _ r => last_char r
  end.

Definition label_ok (first_ok : ascii -> bool) (l : string) : bool :=
  match l with
  | EmptyString => false
  | String c _ =>
      (Nat.leb (String.length l) 63 && first_ok c
       && all_chars (fun x => is_alnum x || is_char 45 x) l
       && match last_char l with
          | Some d => negb (is_char 45 d)
          | None => false
          end)%bool
  end.

Definition joi_domain_ok (d : string) : bool :=
  let labels := split_on 46 d in
  (Nat.leb (String.length d) 256
   && Nat.leb 2 (List.length labels)
   && forallb (label_ok is_alnum) (removelast_str labels)
   && label_ok is_alpha (last_str labels)
   && Nat.leb 2 (String.length (last_str labels))
   && all_chars is_alpha (last_str labels))%bool.

(** [Utf8.encode(s).length] *)
Fixpoint utf8_length (s : string) : nat :=
  match s with
  | EmptyString => 0
  | String c r => (if Nat.ltb (code c) 128 then 1 else 2) + utf8_length r
  end%nat.

Definition is_local_char (c : ascii) : bool := is_atext c || Nat.leb 128 (code c).

Definition joi_local_ok (l : string) : bool :=
  (Nat.leb (utf8_length l) 64
   && forallb (fun w => negb (String.eqb w "") && all_chars is_local_char w)
        (split_on 46 l))%bool.

Definition joi_email (s : string) : bool :=
  (Nat.leb (String.length s) 254 &&
   match split_on 64 s with
   | [l; d] => joi_local_ok l && joi_domain_ok d
   | _ => false
   end)%bool.

(** The schema's regular expression for [email],
    [/^[\w-\.]+@([\w-]+\.)+[\w-]{2,4}$/]: a non-empty local part over
    [\w], ['-'] and ['.'], one ['@'], then at least two dot-separated
    non-empty labels over [\w] and ['-'], the last of 2 to 4 characters. *)
Definition mongoose_email_match (s : string) : bool :=
  match split_on 64 s with
  | [l; d] =>
      let labels := split_on 46 d in
      (negb (String.eqb l "")
       && all_chars (fun c => is_word c || is_char 45 c || is_char 46 c) l
       && Nat.leb 2 (List.length labels)
       && forallb (fun w => negb (String.eqb w "")
                            && all_chars (fun c => is_word c || is_char 45 c) w)
            labels
       && Nat.leb 2 (String.length (last_str labels))
       && Nat.leb (String.length (last_str labels)) 4)%bool
  | _ => false
  end.

(** ** Joi validation (routes/feedback.js, lines 145-165)

    A key of the Joi object schema: [Joi.string()] followed by its rules,
    [.required()], and [.messages(...)] overriding some error templates. *)
Inductive JoiRule := RMin (n : nat) | RMax (n : nat) | REmail.

Record JoiKey := mkJoiKey {
  jkey : string;
  jrules : list JoiRule;
  jrequired : bool;
  jmessages : list (string * string)
}.

Record JoiDetail := mkJoiDetail { jcode : string; jdetail_message : string }.

Definition dq : string := String (ascii_of_nat 34) EmptyString.
Definition quoted (k : string) : string := dq ++ k ++ dq.

Fixpoint digits_fuel (fuel : nat) (n : nat) (acc : string) : string :=
  match fuel with
  | O => acc
  | S f =>
      let acc' := String (ascii_of_nat (48 + Nat.modulo n 10)) acc in
      if Nat.ltb n 10 then acc' else digits_fuel f (Nat.div n 10) acc'
  end.

Definition nat_to_string (n : nat) : string := digits_fuel (S n) n EmptyString.

(** Joi's default English templates for the error codes met here. *)
Definition joi_default_message (k : string) (r : option JoiRule) (code : string) : string :=
  if String.eqb code "any.required" then quoted k ++ " is required"
  else if String.eqb code "string.base" then quoted k ++ " must be a string"
  else if String.eqb code "string.empty" then quoted k ++ " is not allowed to be empty"
  else if String.eqb code "string.email" then quoted k ++ " must be a valid email"
  else if String.eqb code "object.unknown" then quoted k ++ " is not allowed"
  else match r with
       | Some (RMin n) => quoted k ++ " length must be at least " ++ nat_to_string n ++ " characters long"
       | Some (RMax n) => quoted k ++ " length must be less than or equal to " ++ nat_to_string n ++ " characters long"
       | _ => quoted k ++ " is invalid"
       end.

Definition lookup_msg (ms : list (string * string)) (code : string) : option string :=
  option_map snd (find (fun kv => String.eqb (fst kv) code) ms).

Definition joi_error (jk : JoiKey) (r : option JoiRule) (code : string) : JoiDetail :=
  mkJoiDetail code
    match lookup_msg jk.(jmessages) code with
    | Some m => m
    | None => joi_default_message jk.(jkey) r code
    end.

Definition rule_code (r : JoiRule) : string :=
  match r with RMin _ => "string.min" | RMax _ => "string.max" | REmail => "string.email" end.

Definition rule_holds (r : JoiRule) (s : string) : bool :=
  match r with
  | RMin n => Nat.leb n (String.length s)
  | RMax n => Nat.leb (String.length s) n
  | REmail => joi_email s
  end.

(** The rules of one string key, in order; with [abortEarly] the first
    failing rule ends the validation. *)
Fixpoint joi_rules (abortEarly : bool) (jk : JoiKey) (rs : list JoiRule) (s : string)
  : list JoiDetail :=
  match rs with
  | [] => []
  | r :: rs' =>
      if rule_holds r s then joi_rules abortEarly jk rs' s
      else joi_error jk (Some r) (rule_code r)
           :: (if abortEarly then [] else joi_rules abortEarly jk rs' s)
  end.

(** One key: presence, type ([string.base]; no conversion of other types
    to strings), the empty string ([string.empty]), then the rules. *)
Definition joi_string_key (abortEarly : bool) (jk : JoiKey) (v : option JVal)
  : list JoiDetail :=
  match v with
  | None => if jk.(jrequired) then [joi_error jk None "any.required"] else []
  | Some (JStr s) =>
      if String.eqb s "" then [joi_error jk None "string.empty"]
      else joi_rules abortEarly jk jk.(jrules) s
  | Some _ => [joi_error jk None "string.base"]
  end.

Inductive JoiResult :=
| JoiOk (value : JObject)
| JoiErr (first : JoiDetail) (rest : list JoiDetail).

(** [Joi.object(keys).validate(body, { abortEarly })]: the schema's keys in
    order, then the keys the schema does not declare ([object.unknown],
    unknown keys being refused by default).  The validated value is the
    body itself: none of the rules converts a string. *)
Fixpoint joi_keys (abortEarly : bool) (ks : list JoiKey) (body : JObject) : list JoiDetail :=
  match ks with
  | [] => []
  | jk :: ks' =>
      match joi_string_key abortEarly jk (prop body jk.(jkey)) with
      | [] => joi_keys abortEarly ks' body
      | errs => if abortEarly then errs else app errs (joi_keys abortEarly ks' body)
      end
  end.

Definition joi_unknown (abortEarly : bool) (ks : list JoiKey) (body : JObject)
  : list JoiDetail :=
  (if abortEarly then firstn 1 else fun l => l)
  (map (fun kv => mkJoiDetail "object.unknown" (quoted (fst kv) ++ " is not allowed"))
    (filter (fun kv => negb (existsb (fun jk => String.eqb jk.(jkey) (fst kv)) ks)) body)).

Definition joi_validate (abortEarly : bool) (ks : list JoiKey) (body : JObject) : JoiResult :=
  let errs :=
    match joi_keys abortEarly ks body with
    | [] => joi_unknown abortEarly ks body
    | errs => if abortEarly then errs else app errs (joi_unknown abortEarly ks body)
    end in
  match errs with
  | [] => JoiOk body
  | e :: es => JoiErr e es
  end.

(** [feedbackValidation] *)
Definition feedbackValidation : list JoiKey := [
  mkJoiKey "name" [RMin 2; RMax 100] true
    [("string.empty", "Name is required");
     ("string.min", "Name must be at least 2 characters long");
     ("string.max", "Name cannot exceed 100 characters")];
  mkJoiKey "email" [REmail] true
    [("string.empty", "Email is required");
     ("string.email", "Please provide a valid email address")];
  mkJoiKey "contactNumber" [RMin 10; RMax 20] true
    [("string.empty", "Contact number is required");
     ("string.min", "Contact number must be at least 10 digits");
     ("string.max", "Contact number cannot exceed 20 characters")];
  mkJoiKey "message" [RMin 10; RMax 1000] true
    [("string.empty", "Message is required");
     ("string.min", "Message must be at least 10 characters long");
     ("string.max", "Message cannot exceed 1000 characters")]
].

(** ** Mongoose: construction, validation and save *)

Definition Store := list Feedback.

Definition statuses : list string := ["new"; "read"; "responded"; "archived"].
Definition priorities : list string := ["low"; "medium"; "high"; "urgent"].

(** What a request handler sees of its environment: the clock, the client
    address and User-Agent header, and the ObjectId the driver assigns. *)
Record Env := mkEnv {
  now : Z;
  ip : option string;
  ua : option string;
  fresh_id : Z
}.

(** [new Feedback({...value, ipAddress: req.ip, userAgent: ...})] where
    [value] is the object validated by Joi: the [trim] and [lowercase]
    setters applied to the four string keys; [rating], [status],
    [isPublic], [priority] and [tags] take their defaults, as the
    validated object cannot carry them (Joi refuses undeclared keys).  The
    required paths are [option]s until validation. *)
Record Draft := mkDraft {
  dname : option string;
  demail : option string;
  dcontactNumber : option string;
  dmessage : option string;
  drating : Z;
  dstatus : string;
  dipAddress : option string;
  duserAgent : option string;
  disPublic : bool;
  dpriority : string;
  dtags : list string
}.

Definition newFeedback (value : JObject) (env : Env) : Draft :=
  mkDraft
    (option_map trim (str_prop value "name"))
    (option_map (fun s => toLowerCase (trim s)) (str_prop value "email"))
    (option_map trim (str_prop value "contactNumber"))
    (option_map trim (str_prop value "message"))
    5 "new" env.(ip) env.(ua) true "medium" [].

Definition len_between (lo hi : nat) (s : string) : bool :=
  (Nat.leb lo (String.length s) && Nat.leb (String.length s) hi)%bool.

Definition required_str (v : option string) (ok : string -> bool) : bool :=
  match v with
  | Some s => negb (String.eqb s "") && ok s
  | None => false
  end.

(** The schema's validators, run by [save()] before the pre-save hooks. *)
Definition schema_valid (d : Draft) : bool :=
  (required_str d.(dname) (len_between 2 100)
   && required_str d.(demail) mongoose_email_match
   && match d.(dcontactNumber) with Some c => len_between 10 20 c | None => true end
   && required_str d.(dmessage) (len_between 10 1000)
   && (1 <=? d.(drating)) && (d.(drating) <=? 5)
   && existsb (String.eqb d.(dstatus)) statuses
   && existsb (String.eqb d.(dpriority)) priorities)%bool.

(** [await feedback.save()]: [None] is the rejected promise (a
    ValidationError); otherwise the inserted document, with the ObjectId,
    the [createdAt] timestamp and the pre-save auto-tag hook applied. *)
Definition save (env : Env) (d : Draft) : option Feedback :=
  if schema_valid d then
    Some (autoTag true
      (mkFeedback env.(fresh_id)
         (match d.(dname) with Some s => s | None => "" end)
         (match d.(demail) with Some s => s | None => "" end)
         d.(dcontactNumber)
         (match d.(dmessage) with Some s => s | None => "" end)
         d.(drating) d.(dstatus) d.(dipAddress) d.(duserAgent) d.(disPublic)
         d.(dpriority) d.(dtags) env.(now)))
  else None.

(** ** Replies of the route handlers *)

Inductive Reply :=
| Created (id : Z) (nm msg : string) (submittedAt : Z) (st : string)
| BadRequest (message : string) (details : list string)
| DuplicateSubmission
| Unauthorized
| NotFound
| Deleted
| ServerError.

Definition http_status (r : Reply) : Z :=
  match r with
  | Created _ _ _ _ _ => 201
  | BadRequest _ _ => 400
  | DuplicateSubmission => 429
  | Unauthorized => 401
  | NotFound => 404
  | Deleted => 200
  | ServerError => 500
  end.

(** ** [POST /] (routes/feedback.js, lines 181-243)

    The handler behind the rate limiter: validation, the one-hour
    duplicate check on the lowercased email, construction and save.  A
    rejected save lands in the [catch] block (500). *)
Definition oneHourMs : Z := 60 * 60 * 1000.

(** [findOne] casts the filter's [email] value through the path's
    setters, in the order the schema declares them: [trim], then
    [lowercase]. *)
Definition cast_email (s : string) : string := toLowerCase (trim s).

Definition submit (st : Store) (env : Env) (body : JObject) : Reply * Store :=
  match joi_validate true feedbackValidation body with
  | JoiErr e es =>
      (BadRequest e.(jdetail_message) (map jdetail_message (e :: es)), st)
  | JoiOk value =>
      match str_prop value "email" with
      | None => (ServerError, st)
      | Some em =>
          let oneHourAgo := env.(now) - oneHourMs in
          let existing :=
            find (fun r => String.eqb r.(email) (cast_email (toLowerCase em))
                           && (oneHourAgo <=? r.(createdAt)))%bool st in
          match existing with
          | Some _ => (DuplicateSubmission, st)
          | None =>
              match save env (newFeedback value env) with
              | None => (ServerError, st)
              | Some f =>
                  (Created f.(_id) f.(name) f.(message) f.(createdAt) f.(status),
                   app st [f])
              end
          end
      end
  end.

(** ** Queries, sorting and projections of the document store *)

Fixpoint jval_eqb (a b : JVal) : bool :=
  match a, b with
  | JNull, JNull => true
  | JBool x, JBool y => Bool.eqb x y
  | JNum x, JNum y => Z.eqb x y
  | JStr x, JStr y => String.eqb x y
  | JArr xs, JArr ys =>
      (fix go (xs ys : list JVal) : bool :=
         match xs, ys with
         | [], [] => true
         | x :: xs', y :: ys' => jval_eqb x y && go xs' ys'
         | _, _ => false
         end) xs ys
  | _, _ => false
  end.

(** A document as the store holds it: its paths in schema order, absent
    optional paths left out. *)
Definition doc_fields (d : Feedback) : JObject :=
  ([("_id", JNum d.(_id)); ("name", JStr d.(name)); ("email", JStr d.(email))]
  ++ match d.(contactNumber) with Some c => [("contactNumber", JStr c)] | None => [] end
  ++ [("message", JStr d.(message)); ("rating", JNum d.(rating));
      ("status", JStr d.(status))]
  ++ match d.(ipAddress) with Some v => [("ipAddress", JStr v)] | None => [] end
  ++ match d.(userAgent) with Some v => [("userAgent", JStr v)] | None => [] end
  ++ [("isPublic", JBool d.(isPublic)); ("priority", JStr d.(priority));
      ("tags", JArr (map JStr d.(tags))); ("createdAt", JNum d.(createdAt))])%list.

(** A query condition on one path: a plain value, [{ $ne: v }] or
    [{ $gte: n }]. *)
Inductive Cond := CEq (v : JVal) | CNe (v : JVal) | CGte (n : Z).

(** A query object; assigning a key replaces its condition. *)
Definition Query := list (string * Cond).

Fixpoint set_key (k : string) (c : Cond) (q : Query) : Query :=
  match q with
  | [] => [(k, c)]
  | (k', c') :: r => if String.eqb k k' then (k, c) :: r else (k', c') :: set_key k c r
  end.

Definition cond_holds (c : Cond) (v : option JVal) : bool :=
  match c with
  | CEq w => match v with Some x => jval_eqb x w | None => jval_eqb JNull w end
  | CNe w => negb (match v with Some x => jval_eqb x w | None => jval_eqb JNull w end)
  | CGte n => match v with Some (JNum m) => n <=? m | _ => false end
  end.

Definition matches (q : Query) (d : Feedback) : bool :=
  forallb (fun kc => cond_holds (snd kc) (prop (doc_fields d) (fst kc))) q.

(** [.sort({ createdAt: -1 })], ties kept in natural order. *)
Fixpoint insert_desc (x : Feedback) (l : list Feedback) : list Feedback :=
  match l with
  | [] => [x]
  | y :: r => if y.(createdAt) <=? x.(createdAt) then x :: l else y :: insert_desc x r
  end.

Definition sort_desc (l : list Feedback) : list Feedback := fold_right insert_desc [] l.

(** [.limit(n)]: 0 means no limit; a negative [n] is taken as [-n]. *)
Definition mongo_limit {A} (n : Z) (l : list A) : list A :=
  if n =? 0 then l else firstn (Z.to_nat (Z.abs n)) l.

(** A projection as [.select(s)] reads it: names prefixed with ['-'] are
    excluded; with at least one included name the projection is
    inclusive, and keeps [_id] unless ["-_id"] is given. *)
Inductive Projection := PInclude (fs : list string) (keep_id : bool) | PExclude (fs : list string).

Definition is_excl (w : string) : bool :=
  match w with String c _ => is_char 45 c | EmptyString => false end.

Definition drop1 (w : string) : string :=
  match w with String _ r => r | EmptyString => EmptyString end.

Definition parse_select (s : string) : Projection :=
  let ws := filter (fun w => negb (String.eqb w "")) (split_on 32 s) in
  let incl := filter (fun w => negb (is_excl w)) ws in
  let excl := map drop1 (filter is_excl ws) in
  match incl with
  | [] => PExclude excl
  | _ => PInclude incl (negb (existsb (String.eqb "_id") excl))
  end.

Definition mem (x : string) (l : list string) : bool := existsb (String.eqb x) l.

Definition project (p : Projection) (d : Feedback) : JObject :=
  match p with
  | PInclude fs keep =>
      filter (fun kv => if String.eqb (fst kv) "_id" then keep else mem (fst kv) fs)
        (doc_fields d)
  | PExclude fs => filter (fun kv => negb (mem (fst kv) fs)) (doc_fields d)
  end.

(** [Model.find(q).sort({createdAt: -1}).skip(k).limit(n).select(s)] *)
Definition find_sorted (st : Store) (q : Query) (skip : nat) (n : Z) (p : Projection)
  : list JObject :=
  map (project p) (mongo_limit n (skipn skip (sort_desc (filter (matches q) st)))).

Definition countDocuments (st : Store) (q : Query) : Z :=
  Z.of_nat (List.length (filter (matches q) st)).

(** ** [GET /] (routes/feedback.js, lines 248-308)

    The query parameters after [parseInt]; [status] and [priority] are
    used when truthy (present and non-empty). *)
Record ListParams := mkListParams {
  lp_page : Z;
  lp_limit : Z;
  lp_status : option string;
  lp_priority : option string;
  lp_publicOnly : string
}.

Inductive JsNumber := Fin (z : Z) | PosInfinity | NaN.

Record Pagination := mkPagination {
  currentPage : Z;
  totalPages : JsNumber;
  totalItems : Z;
  itemsPerPage : Z;
  hasNextPage : bool;
  hasPrevPage : bool
}.

Definition truthy_str (o : option string) : bool :=
  match o with Some s => negb (String.eqb s "") | None => false end.

(** [Math.ceil(total / limitNum)] *)
Definition ceil_div (a b : Z) : JsNumber :=
  if b =? 0 then (if a =? 0 then NaN else PosInfinity) else Fin (- ((- a) / b)).

Definition publicSelect : string :=
  "name message createdAt formattedDate timeAgo tags priority -_id".
Definition adminSelect : string := "-ipAddress -userAgent".

Definition list_query (lp : ListParams) : Query :=
  let q : Query := [] in
  let q := if String.eqb lp.(lp_publicOnly) "true"
           then set_key "status" (CNe (JStr "archived")) (set_key "isPublic" (CEq (JBool true)) q)
           else q in
  let q := match lp.(lp_status) with
           | Some s => if truthy_str (Some s) then set_key "status" (CEq (JStr s)) q else q
           | None => q end in
  match lp.(lp_priority) with
  | Some s => if truthy_str (Some s) then set_key "priority" (CEq (JStr s)) q else q
  | None => q
  end.

(** [None] is the 500 reply: the server refuses a negative [skip]. *)
Definition listPaged (st : Store) (lp : ListParams) : option (list JObject * Pagination) :=
  let pageNum := lp.(lp_page) in
  let limitNum := lp.(lp_limit) in
  let skip := (pageNum - 1) * limitNum in
  let query := list_query lp in
  if skip <? 0 then None
  else
    let sel := if String.eqb lp.(lp_publicOnly) "true" then publicSelect else adminSelect in
    let feedbacks := find_sorted st query (Z.to_nat skip) limitNum (parse_select sel) in
    let total := countDocuments st query in
    let totalPages := ceil_div total limitNum in
    Some (feedbacks,
          mkPagination pageNum totalPages total limitNum
            (match totalPages with Fin t => pageNum <? t | PosInfinity => true | NaN => false end)
            (1 <? pageNum)).

(** ** [getPublicFeedback] (models/Feedback.js, lines 304-309) and
    [GET /recent] (routes/feedback.js, lines 313-333) *)
Definition publicQuery : Query :=
  [("isPublic", CEq (JBool true)); ("status", CNe (JStr "archived"))].

Definition recentSelect : string := "name message createdAt formattedDate timeAgo tags priority".

Definition getPublicFeedback (st : Store) (limit : Z) : list JObject :=
  find_sorted st publicQuery 0 limit (parse_select recentSelect).

(** The reply's [data] and [count]. *)
Definition getRecent (st : Store) (limit : Z) : list JObject * Z :=
  let feedbacks := getPublicFeedback st limit in
  (feedbacks, Z.of_nat (List.length feedbacks)).

(** ** Serialisation of the documents a reply carries

    [ObjectId.prototype.toString()]: 24 lowercase hexadecimal digits. *)
Definition hex_digit (n : Z) : ascii :=
  ascii_of_nat (Z.to_nat (if n <? 10 then 48 + n else 87 + n)).

Fixpoint hex_pad (k : nat) (n : Z) : string :=
  match k with
  | O => EmptyString
  | S k' => hex_pad k' (n / 16) ++ String (hex_digit (n mod 16)) EmptyString
  end.

Definition objectid_hex (i : Z) : string := hex_pad 24 i.

(** [doc.toJSON()], which [res.json] calls, under the schema option
    [toJSON: { virtuals: true }]: the selected fields, then the virtuals in
    the order the schema defines them: [id] (Mongoose's default virtual,
    the hex string of [_id], or [null] when [_id] is not selected),
    [formattedDate] and [timeAgo].  The last two read [createdAt] through
    [toLocaleDateString] and the server's clock; [fmt] and [ago] are what
    these getters return for a [createdAt] on the server's locale and at
    the moment of the reply.  Without [createdAt] the getters throw
    ([None]). *)
Definition to_json (fmt ago : Z -> string) (o : JObject) : option JObject :=
  match prop o "createdAt" with
  | Some (JNum t) =>
      Some (o ++ [("id", match prop o "_id" with
                         | Some (JNum i) => JStr (objectid_hex i)
                         | _ => JNull
                         end);
                  ("formattedDate", JStr (fmt t)); ("timeAgo", JStr (ago t))])%list
  | _ => None
  end.

(** ** [DELETE /:id] (routes/feedback.js, lines 405-442) *)

(** Node's [req.headers]: header names lowercased, the values of a
    repeated header joined with [", "]. *)
Fixpoint add_header (k v : string) (h : list (string * string)) : list (string * string) :=
  match h with
  | [] => [(k, v)]
  | (k', v') :: r =>
      if String.eqb k k' then (k', v' ++ ", " ++ v) :: r else (k', v') :: add_header k v r
  end.

Fixpoint node_headers_from (acc : list (string * string)) (raw : list (string * string))
  : list (string * string) :=
  match raw with
  | [] => acc
  | (k, v) :: r => node_headers_from (add_header (toLowerCase k) v acc) r
  end.

Definition node_headers (raw : list (string * string)) : list (string * string) :=
  node_headers_from [] raw.

(** [obj[k]] on the headers object *)
Definition header_get (h : list (string * string)) (k : string) : option string :=
  option_map snd (find (fun kv => String.eqb (fst kv) k) h).

(** [a !== b] on two values each a string or [undefined] *)
Definition str_neq (a b : option string) : bool :=
  match a, b with
  | Some x, Some y => negb (String.eqb x y)
  | None, None => false
  | _, _ => true
  end.

Fixpoint remove_by_id (id : Z) (st : Store) : Store :=
  match st with
  | [] => []
  | r :: rs => if r.(_id) =? id then rs else r :: remove_by_id id rs
  end.

(** [ADMIN_KEY] is [process.env.ADMIN_KEY]; [raw] the request's header
    lines as the client sent them. *)
Definition deleteById (st : Store) (ADMIN_KEY : option string)
  (raw : list (string * string)) (id : Z) : Reply * Store :=
  let adminKey := header_get (node_headers raw) "adminKey" in
  if str_neq adminKey ADMIN_KEY then (Unauthorized, st)
  else match find (fun r => r.(_id) =? id) st with
       | None => (NotFound, st)
       | Some _ => (Deleted, remove_by_id id st)
       end.

(** ** [getStats] (models/Feedback.js, lines 312-362) *)

Module Js.

(** [Number(z)] for an integer [z]: the binary64 value nearest to it. *)
Definition number (z : Z) : float :=
  SF2Prim (binary_normalize FloatOps.prec FloatOps.emax z 0 false).

(** The exact value of a finite binary64 as a fraction [num / den]. *)
Definition fraction (x : float) : option (Z * Z) :=
  match Prim2SF x with
  | S754_zero _ => Some (0, 1)
  | S754_finite s m e =>
      let num := if s then Z.neg m else Z.pos m in
      if 0 <=? e then Some (num * 2 ^ e, 1) else Some (num, 2 ^ (- e))
  | _ => None
  end.

(** [floor(num / den + 1/2)], the exact rounding half up, for [den > 0]. *)
Definition round_half_up (num den : Z) : Z := (2 * num + den) / (2 * den).

(** [Math.round(x)]: the nearest integer, halves rounded up. *)
Definition round (x : float) : float :=
  match fraction x with
  | Some (num, den) => number (round_half_up num den)
  | None => x
  end.

(** [Number(x.toFixed(1))]: [toFixed(1)] writes [n / 10] for the integer
    [n] nearest to [10 * x] (halves away from zero), and [Number] reads it
    back as the binary64 nearest to [n / 10].  Values of magnitude at least
    [1e21], printed by [toFixed] in exponent form, read back unchanged. *)
Definition toFixed1 (x : float) : float :=
  if PrimFloat.leb 1e21%float (PrimFloat.abs x) then x
  else match fraction x with
       | Some (num, den) =>
           let n := if num <? 0 then - round_half_up (- 10 * num) den
                    else round_half_up (10 * num) den in
           PrimFloat.div (number n) (number 10)
       | None => x
       end.

(** Truthiness of a number: neither zero nor NaN. *)
Definition truthy (x : float) : bool :=
  negb (PrimFloat.eqb x 0%float) && negb (PrimFloat.is_nan x).

End Js.

Record Stats := mkStats {
  total : Z;
  newCount : Z;
  read : Z;
  responded : Z;
  highPriority : Z;
  urgent : Z;
  averageRating : float;
  satisfactionPercentage : float;
  highRatingCount : Z
}.

Definition sum_ratings (st : Store) : Z := fold_right (fun r acc => r.(rating) + acc) 0 st.

(** [aggregate([{ $group: { _id: null, averageRating: { $avg: '$rating' },
    totalRatings: { $sum: 1 } } }])]: no group for an empty collection;
    otherwise one, whose average is the sum of the (integer) ratings divided
    by their number in binary64. *)
Definition ratingStats (st : Store) : list (float * Z) :=
  match st with
  | [] => []
  | _ => [(PrimFloat.div (Js.number (sum_ratings st)) (Js.number (Z.of_nat (List.length st))),
           Z.of_nat (List.length st))]
  end.

Definition getStats (st : Store) : Stats :=
  let total := countDocuments st [] in
  let newCount := countDocuments st [("status", CEq (JStr "new"))] in
  let read := countDocuments st [("status", CEq (JStr "read"))] in
  let responded := countDocuments st [("status", CEq (JStr "responded"))] in
  let high := countDocuments st [("priority", CEq (JStr "high"))] in
  let urgent := countDocuments st [("priority", CEq (JStr "urgent"))] in
  let avgRating :=
    match ratingStats st with
    | (avg, _) :: _ => if Js.truthy avg then Js.toFixed1 avg else 4.8%float
    | [] => 4.8%float
    end in
  let highRatingCount := countDocuments st [("rating", CGte 4)] in
  let satisfactionPercentage :=
    if 0 <? total
    then Js.round (PrimFloat.mul (PrimFloat.div (Js.number highRatingCount) (Js.number total))
                                 (Js.number 100))
    else Js.number 97 in
  mkStats total newCount read responded high urgent avgRating
    satisfactionPercentage highRatingCount.

(** ** [GET /:id] (routes/feedback.js, lines 363-401)

    [Feedback.findById(id).select('-ipAddress -userAgent')], then the
    404 reply for a missing record and, alike, for one that is not public
    or is archived ([None] is the 404 reply).  With integer ids no id is
    malformed, so the CastError (500) of the [catch] block does not
    arise. *)
Definition getById (st : Store) (id : Z) : option JObject :=
  match find (fun r => r.(_id) =? id) st with
  | None => None
  | Some feedback =>
      if (negb feedback.(isPublic) || String.eqb feedback.(status) "archived")%bool
      then None
      else Some (project (parse_select "-ipAddress -userAgent") feedback)
  end.

(** ** The store as the API changes it

    Only [POST /] and [DELETE /:id] write; the [GET] routes read. *)
Inductive api_step : Store -> Store -> Prop :=
| step_submit (st : Store) (env : Env) (body : JObject) :
    api_step st (snd (submit st env body))
| step_delete (st : Store) (ADMIN_KEY : option string) (raw : list (string * string)) (id : Z) :
    api_step st (snd (deleteById st ADMIN_KEY raw id)).

(** The stores reachable from an empty collection through the API. *)
Inductive reachable : Store -> Prop :=
| reach_empty : reachable []
| reach_step (st st' : Store) : reachable st -> api_step st st' -> reachable st'.

(** ** scripts/migrate-ratings.js: [migrateRatings]

    The collection's raw documents, some of them written before the schema
    had [rating].  [{ rating: { $exists: false } }] matches a document
    without the path; [$set] replaces the value of an existing path in
    place and appends a missing one. *)
Definition has_path (k : string) (o : JObject) : bool :=
  match prop o k with Some _ => true | None => false end.

Definition set_path (k : string) (v : JVal) (o : JObject) : JObject :=
  if has_path k o
  then map (fun kv => if String.eqb (fst kv) k then (k, v) else kv) o
  else app o [(k, v)].

(** [countDocuments({ rating: { $exists: false } })] *)
Definition count_without_rating (docs : list JObject) : Z :=
  Z.of_nat (List.length (filter (fun o => negb (has_path "rating" o)) docs)).

(** [updateMany({ rating: { $exists: false } }, { $set: { rating: 5 } })]:
    the new documents and [modifiedCount].  The schema has
    [timestamps: true], so Mongoose adds [updatedAt] (the time [now] of the
    update, in milliseconds) to the [$set]; MongoDB applies the fields of
    one [$set] in the lexicographic order of their names, [rating] before
    [updatedAt]. *)
Definition update_missing_ratings (now : Z) (docs : list JObject) : list JObject * Z :=
  (map (fun o => if has_path "rating" o then o
                 else set_path "updatedAt" (JNum now) (set_path "rating" (JNum 5) o)) docs,
   count_without_rating docs).

(** The script's steps on the collection: the count it reports, the
    [modifiedCount] when it updates ([None] when it finds nothing to
    update) and the collection afterwards; [now] is the time of the
    update. *)
Definition migrateRatings (now : Z) (docs : list JObject) : Z * option Z * list JObject :=
  let feedbackWithoutRating := count_without_rating docs in
  if 0 <? feedbackWithoutRating then
    let '(docs', modifiedCount) := update_missing_ratings now docs in
    (feedbackWithoutRating, Some modifiedCount, docs')
  else (feedbackWithoutRating, None, docs).

(** ** Vocabulary of the statements *)

Definition bug_kw (m : string) : bool :=
  let m := toLowerCase m in (includes m "bug" || includes m "error" || includes m "issue")%bool.
Definition positive_kw (m : string) : bool :=
  let m := toLowerCase m in (includes m "great" || includes m "awesome" || includes m "love")%bool.
Definition negative_kw (m : string) : bool :=
  let m := toLowerCase m in (includes m "problem" || includes m "difficult" || includes m "hate")%bool.

(** An item without its [_id] path. *)
Definition strip_id (o : JObject) : JObject :=
  filter (fun kv => negb (String.eqb (fst kv) "_id")) o.

(** The statistics as the specification words them, with exact
    arithmetic: the mean rating rounded half up to one decimal (4.8 for an
    empty store) and [round(100 * highRatingCount / total)] (97 when
    [total = 0]), both read as JavaScript numbers. *)
Definition spec_averageRating (st : Store) : float :=
  match st with
  | [] => 4.8%float
  | _ => PrimFloat.div
           (Js.number (Js.round_half_up (10 * sum_ratings st) (Z.of_nat (List.length st))))
           (Js.number 10)
  end.

Definition high_ratings (st : Store) : list Feedback :=
  filter (fun r => 4 <=? r.(rating)) st.

Definition spec_satisfaction (st : Store) : float :=
  let t := Z.of_nat (List.length st) in
  let h := Z.of_nat (List.length (high_ratings st)) in
  if 0 <? t then Js.number (Js.round_half_up (100 * h) t) else Js.number 97.

(** The binary64 mean that [$avg] produces. *)
Definition avg_double (st : Store) : float :=
  PrimFloat.div (Js.number (sum_ratings st)) (Js.number (Z.of_nat (List.length st))).

(** ** Concrete requests and stores *)

Definition env0 : Env := mkEnv 1700000000000 (Some "203.0.113.7") (Some "Mozilla/5.0") 101.

Definition body_ok : JObject :=
  [("name", JStr "Alice Smith"); ("email", JStr "Alice@Example.com");
   ("contactNumber", JStr "0123456789");
   ("message", JStr "Great app, but I hit an error on login")].

Definition body_no_contact : JObject :=
  [("name", JStr "Alice Smith"); ("email", JStr "Alice@Example.com");
   ("message", JStr "Great app, but I hit an error on login")].

(** The record [POST /] stores for [body_ok] on an empty store. *)
Definition stored_ok : Feedback :=
  autoTag true
    (mkFeedback 101 "Alice Smith" "alice@example.com" (Some "0123456789")
       "Great app, but I hit an error on login" 5 "new" (Some "203.0.113.7")
       (Some "Mozilla/5.0") true "medium" [] 1700000000000).

(** Two offending fields: [name] too short and [message] too short. *)
Definition body_two_errors : JObject :=
  [("name", JStr "A"); ("email", JStr "alice@example.com");
   ("contactNumber", JStr "0123456789"); ("message", JStr "too short")].

Definition mkDoc (i : Z) (em : string) (r : Z) (stt : string) (pub : bool) (prio : string)
  (msg : string) (t : Z) : Feedback :=
  mkFeedback i "Alice Smith" em (Some "0123456789") msg r stt
    (Some "203.0.113.7") (Some "Mozilla/5.0") pub prio [] t.

(** A record from [alice@example.com] ten minutes before [env0]. *)
Definition store_alice : Store :=
  [mkDoc 1 "alice@example.com" 5 "new" true "medium" "Nice drone, works well"
     (env0.(now) - 600000)].

(** Five records rated 5, 5, 4, 3, 2. *)
Definition store_five : Store :=
  [mkDoc 1 "a@example.com" 5 "new" true "medium" "message one here" 10;
   mkDoc 2 "b@example.com" 5 "read" true "medium" "message two here" 20;
   mkDoc 3 "c@example.com" 4 "new" true "high" "message three here" 30;
   mkDoc 4 "d@example.com" 3 "responded" false "medium" "message four here" 40;
   mkDoc 5 "e@example.com" 2 "new" true "urgent" "message five here" 50].

(** 200 records, 29 of them rated 5 and 171 rated 1. *)
Definition store_200 : Store :=
  app (repeat (mkDoc 1 "a@example.com" 5 "new" true "medium" "message one here" 10) 29)
    (repeat (mkDoc 2 "b@example.com" 1 "new" true "medium" "message two here" 20) 171).

(** An urgent record whose message reports a bug. *)
Definition doc_urgent_bug : Feedback :=
  mkDoc 7 "u@example.com" 5 "new" true "urgent" "Found a bug in the hardware" 10.

(** A public record that was archived. *)
Definition store_archived : Store :=
  [mkDoc 9 "z@example.com" 5 "archived" true "medium" "Old feedback message" 10].

(** The [contactNumber] of a body satisfies the Joi key: a string of 10
    to 20 characters. *)
Definition contact_ok (body : JObject) : bool :=
  match prop body "contactNumber" with
  | Some (JStr c) => len_between 10 20 c
  | _ => false
  end.

(** [body_ok] with a plus-addressed email, which Joi accepts and the
    schema's regular expression refuses. *)
Definition body_plus : JObject :=
  [("name", JStr "Alice Smith"); ("email", JStr "Alice+news@Example.com");
   ("contactNumber", JStr "0123456789");
   ("message", JStr "Great app, but I hit an error on login")].

(** A later request from the same client, 20 minutes after [env0]. *)
Definition env1 : Env := mkEnv (1700000000000 + 1200000) (Some "203.0.113.7") (Some "Mozilla/5.0") 102.

(** [body_ok] with the email in other letter cases. *)
Definition body_ok_upper : JObject :=
  [("name", JStr "Alice Smith"); ("email", JStr "ALICE@example.COM");
   ("contactNumber", JStr "0123456789");
   ("message", JStr "Second message about the app")].

(** Legacy documents: one without [rating], one rated 3. *)
Definition legacy_docs : list JObject :=
  [[("_id", JNum 1); ("name", JStr "Old User"); ("message", JStr "Written before ratings");
    ("createdAt", JNum 100); ("updatedAt", JNum 100)];
   [("_id", JNum 2); ("name", JStr "New User"); ("message", JStr "Rated feedback here");
    ("rating", JNum 3)]].

(** The claims' statements, read literally. *)
Definition claim_stats (st : Store) : Prop :=
  (getStats st).(averageRating) = spec_averageRating st
  /\ (getStats st).(satisfactionPercentage) = spec_satisfaction st
  /\ (getStats st).(highRatingCount) = Z.of_nat (List.length (high_ratings st)).

Definition claim_duplicate_guard : Prop :=
  forall st env body em,
    str_prop body "email" = Some em ->
    (exists r, In r st /\ r.(email) = toLowerCase em
               /\ env.(now) - oneHourMs <= r.(createdAt)) ->
    submit st env body = (DuplicateSubmission, st).

(** The key [k] of [feedbackValidation] accepts the body's value. *)
Definition field_valid (k : string) (body : JObject) : bool :=
  forallb (fun jk => negb (String.eqb jk.(jkey) k)
                     || match joi_string_key true jk (prop body k) with [] => true | _ => false end)%bool
    feedbackValidation.

Definition claim_contact_optional : Prop :=
  forall st env body,
    prop body "contactNumber" = None ->
    field_valid "name" body = true -> field_valid "email" body = true ->
    field_valid "message" body = true ->
    joi_unknown true feedbackValidation body = [] ->
    http_status (fst (submit st env body)) <> 400.

Definition claim_never_downgrade : Prop :=
  forall d, d.(priority) = "urgent" ->
    (bug_kw d.(message) || negative_kw d.(message))%bool = true ->
    (autoTag true d).(priority) = "urgent".

Definition claim_recent_equiv : Prop :=
  forall st l fmt ago, exists items pg,
    listPaged st (mkListParams 1 l None None "true") = Some (items, pg)
    /\ map (to_json fmt ago) (fst (getRecent st l)) = map (to_json fmt ago) items.

(** * Proofs *)

(** ** Strings and the auto-tag hook *)

Lemma includes_empty (p : string) : p <> "" -> includes "" p = false.
Proof. destruct p as [|c p]; [contradiction|reflexivity]. Qed.

Lemma bug_kw_nonempty (m : string) : bug_kw m = true -> m <> "".
Proof. intros H E; subst m; discriminate H. Qed.

Lemma negative_kw_nonempty (m : string) : negative_kw m = true -> m <> "".
Proof. intros H E; subst m; discriminate H. Qed.

Lemma set_dedup_from_in (l seen : list string) (x : string) :
  In x l -> In x seen \/ In x (set_dedup_from seen l).
Proof.
  revert seen. induction l as [|a l IH]; simpl; intros seen Hx; [contradiction|].
  destruct (existsb (String.eqb a) seen) eqn:Ea.
  - destruct Hx as [<-|Hx].
    + left. apply existsb_exists in Ea as [y [Hy Ey]].
      apply String.eqb_eq in Ey; subst; exact Hy.
    + apply IH; exact Hx.
  - destruct Hx as [<-|Hx]; [right; left; reflexivity|].
    destruct (IH (a :: seen) Hx) as [[<-|Hin]|Hin].
    + right; left; reflexivity.
    + left; exact Hin.
    + right; right; exact Hin.
Qed.

Lemma set_dedup_in (l : list string) (x : string) : In x l -> In x (set_dedup l).
Proof.
  intros H. destruct (set_dedup_from_in l [] x H) as [[]|Hin]; exact Hin.
Qed.

Ltac split_ifs :=
  repeat match goal with
         | |- context [if ?b then _ else _] => destruct b eqn:?
         end.

(** The hook touches [tags] and [priority] only. *)
Lemma autoTag_keeps (b : bool) (d : Feedback) :
  let f := autoTag b d in
  f.(_id) = d.(_id) /\ f.(name) = d.(name) /\ f.(email) = d.(email)
  /\ f.(message) = d.(message) /\ f.(rating) = d.(rating)
  /\ f.(status) = d.(status) /\ f.(isPublic) = d.(isPublic)
  /\ f.(createdAt) = d.(createdAt).
Proof.
  unfold autoTag. split_ifs; simpl; repeat split.
Qed.

Lemma autoTag_priority (d : Feedback) :
  (autoTag true d).(priority) =
  if (bug_kw d.(message) || negative_kw d.(message))%bool then "high" else d.(priority).
Proof.
  unfold autoTag, bug_kw, negative_kw.
  destruct (String.eqb d.(message) "") eqn:E.
  - apply String.eqb_eq in E. rewrite E. reflexivity.
  - simpl. set (m := toLowerCase d.(message)).
    destruct (includes m "bug" || includes m "error" || includes m "issue")%bool;
    destruct (includes m "problem" || includes m "difficult" || includes m "hate")%bool;
    simpl; split_ifs; reflexivity.
Qed.

Lemma autoTag_bug_report (d : Feedback) :
  bug_kw d.(message) = true ->
  In "bug-report" (autoTag true d).(tags) /\ (autoTag true d).(priority) = "high"
  /\ (positive_kw d.(message) = true -> In "positive" (autoTag true d).(tags)).
Proof.
  intros Hb.
  assert (Hne : String.eqb d.(message) "" = false)
    by (apply String.eqb_neq; apply bug_kw_nonempty; exact Hb).
  split; [|split].
  - unfold autoTag. rewrite Hne. simpl.
    unfold bug_kw in Hb. rewrite Hb.
    split_ifs; simpl; apply set_dedup_in; apply in_or_app; right;
      repeat rewrite in_app_iff; simpl; tauto.
  - rewrite autoTag_priority, Hb. reflexivity.
  - intros Hp. unfold autoTag. rewrite Hne. simpl.
    unfold bug_kw in Hb. unfold positive_kw in Hp. rewrite Hb, Hp.
    split_ifs; simpl; apply set_dedup_in; apply in_or_app; right;
      repeat rewrite in_app_iff; simpl; tauto.
Qed.

(** ** Case and trimming *)

Lemma is_ws_lower_char (c : ascii) : is_ws (lower_char c) = is_ws c.
Proof. destruct c as [[] [] [] [] [] [] [] []]; reflexivity. Qed.

Lemma toLowerCase_append (a b : string) :
  toLowerCase (a ++ b) = toLowerCase a ++ toLowerCase b.
Proof. induction a as [|c a IH]; simpl; [reflexivity|rewrite IH; reflexivity]. Qed.

Lemma trim_start_lower (s : string) : trim_start (toLowerCase s) = toLowerCase (trim_start s).
Proof.
  induction s as [|c s IH]; simpl; [reflexivity|].
  rewrite is_ws_lower_char. destruct (is_ws c); [exact IH|reflexivity].
Qed.

Lemma rev_string_lower (s : string) : rev_string (toLowerCase s) = toLowerCase (rev_string s).
Proof.
  induction s as [|c s IH]; simpl; [reflexivity|].
  rewrite IH, toLowerCase_append. reflexivity.
Qed.

(** Lowercasing and trimming commute. *)
Lemma trim_lower (s : string) : trim (toLowerCase s) = toLowerCase (trim s).
Proof.
  unfold trim. rewrite trim_start_lower, rev_string_lower, trim_start_lower, rev_string_lower.
  reflexivity.
Qed.

Lemma lower_char_idem (c : ascii) : lower_char (lower_char c) = lower_char c.
Proof. destruct c as [[] [] [] [] [] [] [] []]; reflexivity. Qed.

Lemma toLowerCase_idem (s : string) : toLowerCase (toLowerCase s) = toLowerCase s.
Proof. induction s as [|c s IH]; simpl; [reflexivity|rewrite lower_char_idem, IH; reflexivity]. Qed.

(** The duplicate filter's email, cast through the setters, is the
    trimmed lowercased address. *)
Lemma cast_lower_email (s : string) : cast_email (toLowerCase s) = toLowerCase (trim s).
Proof. unfold cast_email. rewrite trim_lower, toLowerCase_idem. reflexivity. Qed.

(** ** The submission handler *)

Ltac split_andb H :=
  repeat match type of H with
         | (_ && _)%bool = true => apply andb_prop in H as [H ?]
         end.

Lemma joi_validate_ok (ab : bool) (ks : list JoiKey) (body v : JObject) :
  joi_validate ab ks body = JoiOk v -> v = body.
Proof.
  unfold joi_validate. intros H.
  destruct (joi_keys ab ks body) as [|e0 r0].
  - destruct (joi_unknown ab ks body); simpl in H; congruence.
  - destruct ab; simpl in H; congruence.
Qed.

Lemma submit_cases (st : Store) (env : Env) (body : JObject) (rep : Reply) (st' : Store) :
  submit st env body = (rep, st') ->
  st' = st \/
  exists f, save env (newFeedback body env) = Some f /\ st' = app st [f]
            /\ rep = Created f.(_id) f.(name) f.(message) f.(createdAt) f.(status).
Proof.
  unfold submit. destruct (joi_validate true feedbackValidation body) eqn:Hj.
  - apply joi_validate_ok in Hj; subst value.
    destruct (str_prop body "email"); [|intros H; inversion H; left; reflexivity].
    destruct (find _ st); [intros H; inversion H; left; reflexivity|].
    destruct (save env (newFeedback body env)) as [f|]; intros H; inversion H; subst.
    + right. exists f. auto.
    + left. reflexivity.
  - intros H; inversion H; left; reflexivity.
Qed.

Lemma app_single_neq (st : Store) (f : Feedback) : app st [f] <> st.
Proof.
  intros H. apply (f_equal (@List.length Feedback)) in H.
  rewrite length_app in H. simpl in H. lia.
Qed.

(** A submission that adds [f] to the store saved it. *)
Lemma submit_stored (st : Store) (env : Env) (body : JObject) (rep : Reply) (f : Feedback) :
  submit st env body = (rep, app st [f]) ->
  save env (newFeedback body env) = Some f
  /\ rep = Created f.(_id) f.(name) f.(message) f.(createdAt) f.(status).
Proof.
  intros H. destruct (submit_cases st env body rep (app st [f]) H) as [E|[f' [Hs [E Hr]]]].
  - exfalso. exact (app_single_neq st f E).
  - apply app_inj_tail in E as [_ <-]. auto.
Qed.

Lemma find_none_iff {A} (p : A -> bool) (l : list A) :
  (forall x, In x l -> p x = false) -> find p l = None.
Proof.
  intros H. destruct (find p l) eqn:F; [|reflexivity].
  apply find_some in F as [Hin Hp]. rewrite (H a Hin) in Hp. discriminate.
Qed.

(** C3: a newly stored record whose message contains "bug", "error" or
    "issue" (in any case) is tagged [bug-report] and has priority [high];
    the rules being independent, a positive keyword in the same message
    adds the [positive] tag as well. *)
Theorem submit_bug_report_tagged (st : Store) (env : Env) (body : JObject)
  (rep : Reply) (f : Feedback) :
  submit st env body = (rep, app st [f]) ->
  bug_kw f.(message) = true ->
  In "bug-report" f.(tags) /\ f.(priority) = "high"
  /\ (positive_kw f.(message) = true -> In "positive" f.(tags)).
Proof.
  intros Hs Hb. apply submit_stored in Hs as [Hsave _].
  unfold save in Hsave. destruct (schema_valid _); inversion Hsave as [Hf]; clear Hsave.
  match type of Hf with autoTag true ?x = _ =>
    destruct (autoTag_keeps true x) as (_ & _ & _ & Hm & _) end.
  subst f. rewrite Hm in Hb |- *. apply autoTag_bug_report. exact Hb.
Qed.

Lemma submit_bug_report_tagged_witness :
  submit [] env0 body_ok = (fst (submit [] env0 body_ok), app [] [stored_ok])
  /\ bug_kw stored_ok.(message) = true
  /\ (In "bug-report" stored_ok.(tags) /\ stored_ok.(priority) = "high"
      /\ (positive_kw stored_ok.(message) = true -> In "positive" stored_ok.(tags))).
Proof.
  assert (H1 : submit [] env0 body_ok = (fst (submit [] env0 body_ok), app [] [stored_ok]))
    by (vm_compute; reflexivity).
  assert (H2 : bug_kw stored_ok.(message) = true) by (vm_compute; reflexivity).
  exact (conj H1 (conj H2 (submit_bug_report_tagged [] env0 body_ok _ stored_ok H1 H2))).
Defined.

(** C9: the stored record's email is the submitted email lowercased and
    trimmed, and its rating is 5 when the submission has none. *)
Theorem submit_stores_normalised_email (st : Store) (env : Env) (body : JObject)
  (rep : Reply) (f : Feedback) :
  submit st env body = (rep, app st [f]) ->
  exists em, str_prop body "email" = Some em
             /\ f.(email) = trim (toLowerCase em)
             /\ (prop body "rating" = None -> f.(rating) = 5).
Proof.
  intros Hs. apply submit_stored in Hs as [Hsave _].
  unfold save in Hsave. destruct (schema_valid (newFeedback body env)) eqn:Hv;
    [|discriminate].
  injection Hsave as Hf.
  match type of Hf with autoTag true ?x = _ =>
    destruct (autoTag_keeps true x) as (_ & _ & He & _ & Hr & _) end.
  subst f. rewrite He, Hr. cbn [email rating].
  unfold newFeedback in Hv |- *.
  destruct (str_prop body "email") as [em|] eqn:Hem.
  - exists em. split; [reflexivity|]. split.
    + cbn [demail option_map]. rewrite trim_lower. reflexivity.
    + intros _. reflexivity.
  - unfold schema_valid in Hv. split_andb Hv. discriminate.
Qed.

Lemma submit_stores_normalised_email_witness :
  submit [] env0 body_ok = (fst (submit [] env0 body_ok), app [] [stored_ok])
  /\ exists em, str_prop body_ok "email" = Some em
                /\ stored_ok.(email) = trim (toLowerCase em)
                /\ (prop body_ok "rating" = None -> stored_ok.(rating) = 5).
Proof.
  assert (H1 : submit [] env0 body_ok = (fst (submit [] env0 body_ok), app [] [stored_ok]))
    by (vm_compute; reflexivity).
  exact (conj H1 (submit_stores_normalised_email [] env0 body_ok _ stored_ok H1)).
Defined.




(** ** Joi's error list *)

Lemma joi_validate_ok_keys (ab : bool) (ks : list JoiKey) (body v : JObject) :
  joi_validate ab ks body = JoiOk v -> joi_keys ab ks body = [].
Proof.
  unfold joi_validate. intros H.
  destruct (joi_keys ab ks body) as [|e0 r0]; [reflexivity|].
  destruct ab; simpl in H; discriminate.
Qed.

Lemma joi_keys_nil_in (ab : bool) (ks : list JoiKey) (body : JObject) :
  joi_keys ab ks body = [] ->
  forall jk, In jk ks -> joi_string_key ab jk (prop body jk.(jkey)) = [].
Proof.
  induction ks as [|k ks IH]; simpl; intros H jk Hin; [contradiction|].
  destruct (joi_string_key ab k (prop body (jkey k))) as [|e es] eqn:Ek.
  - destruct Hin as [<-|Hin]; [exact Ek|exact (IH H jk Hin)].
  - destruct ab; simpl in H; discriminate.
Qed.

(** C5 (as amended): [contactNumber] is required by the request
    validation: a submission without it, or with a value that is not a
    string of 10 to 20 characters, is refused with 400 and stores
    nothing. *)
Theorem submit_contact_required (st : Store) (env : Env) (body : JObject) :
  contact_ok body = false ->
  exists m ds, submit st env body = (BadRequest m ds, st)
               /\ http_status (BadRequest m ds) = 400.
Proof.
  intros Hc. unfold submit.
  destruct (joi_validate true feedbackValidation body) as [v|e es] eqn:Hj;
    [|exists (jdetail_message e); eexists; split; reflexivity].
  exfalso. apply joi_validate_ok_keys in Hj.
  assert (Hk := joi_keys_nil_in true feedbackValidation body Hj
                  (nth 2 feedbackValidation (mkJoiKey "" [] false []))
                  ltac:(simpl; tauto)).
  unfold contact_ok in Hc. simpl in Hk. unfold joi_string_key in Hk.
  destruct (prop body "contactNumber") as [[| | |c|]|];
    cbn [jrequired] in Hk; try discriminate Hk.
  destruct (String.eqb c "") eqn:Ec; [discriminate Hk|].
  unfold len_between in Hc. cbn [joi_rules rule_holds jrules] in Hk.
  destruct (Nat.leb 10 (String.length c)); [|discriminate Hk].
  destruct (Nat.leb (String.length c) 20); [|discriminate Hk].
  discriminate Hc.
Qed.

Lemma submit_contact_required_witness :
  contact_ok body_no_contact = false
  /\ exists m ds, submit [] env0 body_no_contact = (BadRequest m ds, [])
                  /\ http_status (BadRequest m ds) = 400.
Proof.
  assert (Hc : contact_ok body_no_contact = false) by (vm_compute; reflexivity).
  exact (conj Hc (submit_contact_required [] env0 body_no_contact Hc)).
Defined.

(** C5, read literally, fails: with valid name, email and message and no
    [contactNumber], the submission is refused with 400. *)
Lemma claim_contact_optional_fails : ~ claim_contact_optional.
Proof.
  intros H. apply (H [] env0 body_no_contact); vm_compute; reflexivity.
Qed.

Lemma joi_rules_abort_le1 (jk : JoiKey) (rs : list JoiRule) (s : string) :
  (List.length (joi_rules true jk rs s) <= 1)%nat.
Proof.
  induction rs as [|r rs IH]; simpl; [lia|].
  destruct (rule_holds r s); simpl; [exact IH|lia].
Qed.

Lemma joi_string_key_abort_le1 (jk : JoiKey) (v : option JVal) :
  (List.length (joi_string_key true jk v) <= 1)%nat.
Proof.
  unfold joi_string_key.
  destruct v as [[| | |s|]|]; simpl; try lia.
  - destruct (String.eqb s ""); simpl; [lia|apply joi_rules_abort_le1].
  - destruct (jrequired jk); simpl; lia.
Qed.

Lemma joi_keys_abort_le1 (ks : list JoiKey) (body : JObject) :
  (List.length (joi_keys true ks body) <= 1)%nat.
Proof.
  induction ks as [|k ks IH]; simpl; [lia|].
  destruct (joi_string_key true k (prop body (jkey k))) eqn:E; [exact IH|].
  rewrite <- E. apply joi_string_key_abort_le1.
Qed.

Lemma joi_unknown_abort_le1 (ks : list JoiKey) (body : JObject) :
  (List.length (joi_unknown true ks body) <= 1)%nat.
Proof. unfold joi_unknown. cbv beta iota. rewrite length_firstn. lia. Qed.

(** With [abortEarly] (Joi's default) the validation reports one error. *)
Lemma joi_validate_abort_single (ks : list JoiKey) (body : JObject) (e : JoiDetail)
  (es : list JoiDetail) :
  joi_validate true ks body = JoiErr e es -> es = [].
Proof.
  unfold joi_validate. intros H.
  destruct (joi_keys true ks body) as [|x l] eqn:Ek.
  - pose proof (joi_unknown_abort_le1 ks body) as Hl.
    destruct (joi_unknown true ks body) as [|y [|z r]]; simpl in *;
      [discriminate H| injection H as _ <-; reflexivity | lia].
  - pose proof (joi_keys_abort_le1 ks body) as Hl. rewrite Ek in Hl.
    injection H as _ <-. destruct l; [reflexivity|simpl in Hl; lia].
Qed.

(** A 400 reply of [POST /] carries its message as its only detail. *)
Lemma submit_badrequest_single (st : Store) (env : Env) (body : JObject) (m : string)
  (ds : list string) (st' : Store) :
  submit st env body = (BadRequest m ds, st') -> ds = [m].
Proof.
  unfold submit.
  destruct (joi_validate true feedbackValidation body) as [v|e es] eqn:Hj.
  - destruct (str_prop v "email"); [|discriminate].
    cbv beta zeta.
    destruct (find _ st); [discriminate|].
    destruct (save env (newFeedback v env)); discriminate.
  - intros H. injection H as <- <- _.
    rewrite (joi_validate_abort_single _ _ _ _ Hj). reflexivity.
Qed.

(** C4 (code bug): the body [body_two_errors] violates two fields, name and
    message, as a validation that collects every error finds; but [POST /]
    validates with Joi's default [abortEarly] and answers with the name's
    violation alone, as its message and as the whole detail list. *)
Theorem submit_reports_first_violation_only :
  map jdetail_message (joi_keys false feedbackValidation body_two_errors)
    = ["Name must be at least 2 characters long";
       "Message must be at least 10 characters long"]
  /\ submit [] env0 body_two_errors
     = (BadRequest "Name must be at least 2 characters long"
          ["Name must be at least 2 characters long"], []).
Proof. split; vm_compute; reflexivity. Qed.

(** C6 (as amended): for every new record whose message holds a bug or
    negative keyword, the auto-tag hook sets the priority to ['high'],
    whatever it was before, ['urgent'] included. *)
Theorem autoTag_escalation_sets_high (d : Feedback) :
  (bug_kw d.(message) || negative_kw d.(message))%bool = true ->
  (autoTag true d).(priority) = "high".
Proof. intros H. rewrite autoTag_priority, H. reflexivity. Qed.

Lemma autoTag_escalation_sets_high_witness :
  doc_urgent_bug.(priority) = "urgent"
  /\ (bug_kw doc_urgent_bug.(message) || negative_kw doc_urgent_bug.(message))%bool = true
  /\ (autoTag true doc_urgent_bug).(priority) = "high".
Proof.
  assert (H : (bug_kw doc_urgent_bug.(message) || negative_kw doc_urgent_bug.(message))%bool
              = true) by (vm_compute; reflexivity).
  exact (conj eq_refl (conj H (autoTag_escalation_sets_high doc_urgent_bug H))).
Defined.

(** C6, read literally, fails: an ['urgent'] record reporting a bug leaves
    the hook as ['high']. *)
Lemma claim_never_downgrade_fails : ~ claim_never_downgrade.
Proof.
  intros H.
  assert (K : (bug_kw doc_urgent_bug.(message) || negative_kw doc_urgent_bug.(message))%bool
              = true) by (vm_compute; reflexivity).
  specialize (H doc_urgent_bug eq_refl K).
  rewrite autoTag_priority, K in H. discriminate H.
Qed.

(** C7 (code bug): in [publicOnly] mode a [status] parameter replaces the
    [status != archived] condition: asking for [status=archived] lists the
    store's only record, a public archived one. *)
Theorem listPaged_public_lists_archived :
  (forall d, In d store_archived -> d.(status) = "archived")
  /\ option_map fst (listPaged store_archived (mkListParams 1 10 (Some "archived") None "true"))
     = Some (map (project (parse_select publicSelect)) store_archived)
  /\ store_archived <> [].
Proof.
  split; [|split; [vm_compute; reflexivity|discriminate]].
  intros d [<-|[]]. reflexivity.
Qed.

(** ** [DELETE /:id]: the [adminKey] header *)

(** No lowercased name is [adminKey]. *)
Lemma toLowerCase_not_adminKey (s : string) : toLowerCase s <> "adminKey".
Proof.
  intros H. pose proof (toLowerCase_idem s) as I. rewrite H in I. discriminate I.
Qed.

Definition lowered_keys (h : list (string * string)) : Prop :=
  Forall (fun kv => toLowerCase (fst kv) = fst kv) h.

Lemma add_header_lowered (k v : string) (h : list (string * string)) :
  toLowerCase k = k -> lowered_keys h -> lowered_keys (add_header k v h).
Proof.
  unfold lowered_keys. intros Hk. induction h as [|[k' v'] h IH]; simpl; intros Hh.
  - constructor; [exact Hk|constructor].
  - inversion Hh as [|x y Hx Hr]; subst.
    simpl in Hx. destruct (String.eqb k k'); constructor; simpl; auto.
Qed.

Lemma node_headers_from_lowered (acc raw : list (string * string)) :
  lowered_keys acc -> lowered_keys (node_headers_from acc raw).
Proof.
  revert acc. induction raw as [|[k v] raw IH]; simpl; intros acc Ha; [exact Ha|].
  apply IH, add_header_lowered; [apply toLowerCase_idem|exact Ha].
Qed.

Lemma node_headers_no_adminKey (raw : list (string * string)) :
  header_get (node_headers raw) "adminKey" = None.
Proof.
  unfold header_get.
  assert (Hl : lowered_keys (node_headers raw))
    by (apply node_headers_from_lowered; constructor).
  induction Hl as [|[k v] h Hk Hh IH]; simpl; [reflexivity|].
  simpl in Hk. destruct (String.eqb k "adminKey") eqn:E; [|exact IH].
  apply String.eqb_eq in E. subst k. exfalso. exact (toLowerCase_not_adminKey _ Hk).
Qed.

(** C10 (code bug): Node lowercases header names, so [req.headers.adminKey]
    is always [undefined]: with [ADMIN_KEY] configured every delete is
    refused with 401, the configured key presented or not; with no
    [ADMIN_KEY] the check always passes. *)
Theorem deleteById_adminKey_never_read (st : Store) (raw : list (string * string)) (id : Z) :
  (forall k, deleteById st (Some k) raw id = (Unauthorized, st))
  /\ deleteById st None raw id
     = match find (fun r => r.(_id) =? id) st with
       | None => (NotFound, st)
       | Some _ => (Deleted, remove_by_id id st)
       end.
Proof.
  unfold deleteById. rewrite node_headers_no_adminKey. split; [intros k|]; reflexivity.
Qed.

(** ** [GET /recent] and [GET /?publicOnly=true] *)

Lemma project_public_recent (d : Feedback) :
  project (parse_select publicSelect) d = strip_id (project (parse_select recentSelect) d).
Proof.
  replace (parse_select publicSelect) with
    (PInclude ["name"; "message"; "createdAt"; "formattedDate"; "timeAgo"; "tags"; "priority"]
       false) by (vm_compute; reflexivity).
  replace (parse_select recentSelect) with
    (PInclude ["name"; "message"; "createdAt"; "formattedDate"; "timeAgo"; "tags"; "priority"]
       true) by (vm_compute; reflexivity).
  unfold project, strip_id. generalize (doc_fields d) as l.
  induction l as [|[k v] l IH]; cbn [filter fst]; [reflexivity|].
  destruct (String.eqb k "_id") eqn:E; cbn [filter fst negb]; rewrite ?E; cbn [negb].
  - exact IH.
  - match goal with |- context [mem k ?fs] => destruct (mem k fs) end;
      cbn [filter fst]; rewrite ?E; cbn [negb]; [f_equal|]; exact IH.
Qed.

Lemma recent_item_has_id (d : Feedback) :
  prop (project (parse_select recentSelect) d) "_id" = Some (JNum d.(_id)).
Proof.
  destruct d as [i n e [c|] m r s [ip|] [ua|] pub pr tg t]; vm_compute; reflexivity.
Qed.

Lemma find_app_opt {A} (p : A -> bool) (l1 l2 : list A) :
  find p (l1 ++ l2)%list = match find p l1 with Some x => Some x | None => find p l2 end.
Proof. induction l1 as [|a l1 IH]; simpl; [reflexivity |]. destruct (p a); [reflexivity | exact IH]. Qed.

Lemma prop_app (o e : JObject) (k : string) :
  prop (o ++ e)%list k = match prop e k with Some v => Some v | None => prop o k end.
Proof.
  unfold prop. rewrite rev_app_distr, find_app_opt.
  destruct (find _ (rev e)); reflexivity.
Qed.

Lemma rev_filter_comm {A} (q : A -> bool) (l : list A) :
  rev (filter q l) = filter q (rev l).
Proof.
  induction l as [|a l IH]; simpl; [reflexivity |].
  assert (Hf : forall l1 l2 : list A, filter q (l1 ++ l2)%list = (filter q l1 ++ filter q l2)%list).
  { induction l1 as [|b l1 IH1]; intros l2; simpl; [reflexivity |].
    destruct (q b); simpl; rewrite IH1; reflexivity. }
  rewrite Hf. simpl. destruct (q a); simpl; rewrite IH; [reflexivity | symmetry; apply app_nil_r].
Qed.

Lemma find_filter_keep {A} (p q : A -> bool) (l : list A) :
  (forall x, p x = true -> q x = true) -> find p (filter q l) = find p l.
Proof.
  intros Hpq. induction l as [|a l IH]; simpl; [reflexivity |].
  case_eq (p a); intros Hp.
  - rewrite (Hpq a Hp). simpl. rewrite Hp. reflexivity.
  - destruct (q a); simpl; [rewrite Hp |]; exact IH.
Qed.

Lemma find_filter_drop {A} (p q : A -> bool) (l : list A) :
  (forall x, p x = true -> q x = false) -> find p (filter q l) = None.
Proof.
  intros Hpq. induction l as [|a l IH]; simpl; [reflexivity |].
  case_eq (q a); intros Hq; [| exact IH].
  simpl. case_eq (p a); intros Hp; [rewrite (Hpq a Hp) in Hq; discriminate | exact IH].
Qed.

Lemma prop_strip_id_other (o : JObject) (k : string) :
  k <> "_id" -> prop (strip_id o) k = prop o k.
Proof.
  intros Hk. unfold prop, strip_id. rewrite rev_filter_comm, find_filter_keep; [reflexivity |].
  intros [k' v] Hp. cbn [fst] in *. apply String.eqb_eq in Hp. subst k'.
  apply negb_true_iff, String.eqb_neq. exact Hk.
Qed.

Lemma prop_strip_id_id (o : JObject) : prop (strip_id o) "_id" = None.
Proof.
  unfold prop, strip_id. rewrite rev_filter_comm, find_filter_drop; [reflexivity |].
  intros [k' v] Hp. cbn [fst] in *. rewrite Hp. reflexivity.
Qed.

Lemma prop_virtuals (x a b : JVal) (k : string) :
  prop [("id", x); ("formattedDate", a); ("timeAgo", b)] k
  = if String.eqb "timeAgo" k then Some b
    else if String.eqb "formattedDate" k then Some a
    else if String.eqb "id" k then Some x else None.
Proof.
  unfold prop. cbn [rev app find fst].
  destruct (String.eqb "timeAgo" k); [reflexivity |].
  destruct (String.eqb "formattedDate" k); [reflexivity |].
  destruct (String.eqb "id" k); reflexivity.
Qed.

Lemma recent_item_createdAt (d : Feedback) :
  prop (project (parse_select recentSelect) d) "createdAt" = Some (JNum d.(createdAt)).
Proof.
  destruct d as [i n e [c|] m r s [ip|] [ua|] pub pr tg t]; vm_compute; reflexivity.
Qed.



(** ** [getStats] *)

Lemma prop_rating (d : Feedback) : prop (doc_fields d) "rating" = Some (JNum d.(rating)).
Proof.
  destruct d as [i n e [c|] m r s [ip|] [ua|] pub pr tg t]; vm_compute; reflexivity.
Qed.

Lemma count_all (st : Store) : countDocuments st [] = Z.of_nat (List.length st).
Proof. unfold countDocuments, matches. simpl forallb. rewrite filter_true. reflexivity. Qed.

Lemma count_high_ratings (st : Store) :
  countDocuments st [("rating", CGte 4)] = Z.of_nat (List.length (high_ratings st)).
Proof.
  unfold countDocuments, high_ratings. do 2 f_equal. apply filter_ext. intros d.
  unfold matches. simpl forallb. cbn [fst snd]. rewrite prop_rating.
  simpl. apply andb_true_r.
Qed.

(** C1 (as amended): [getStats] counts every record, counts those rated
    at least 4, and computes the percentage and the mean in binary64 as
    the code does: [Math.round((h / total) * 100)] with 97 for an empty
    store, and [Number(avg.toFixed(1))] of the binary64 mean [$avg] with
    4.8 for an empty store (or a zero mean).  On ratings [5,5,4,3,2] it
    gives 3, 60 and 3.8. *)
Theorem getStats_values (st : Store) :
  (getStats st).(total) = Z.of_nat (List.length st)
  /\ (getStats st).(highRatingCount) = Z.of_nat (List.length (high_ratings st))
  /\ (getStats st).(satisfactionPercentage)
     = (if 0 <? Z.of_nat (List.length st)
        then Js.round (PrimFloat.mul
                         (PrimFloat.div (Js.number (Z.of_nat (List.length (high_ratings st))))
                                        (Js.number (Z.of_nat (List.length st))))
                         (Js.number 100))
        else Js.number 97)
  /\ (getStats st).(averageRating)
     = match st with
       | [] => 4.8%float
       | _ => if Js.truthy (avg_double st) then Js.toFixed1 (avg_double st) else 4.8%float
       end
  /\ map rating store_five = [5; 5; 4; 3; 2]
  /\ (getStats store_five).(highRatingCount) = 3
  /\ (getStats store_five).(satisfactionPercentage) = 60%float
  /\ (getStats store_five).(averageRating) = 3.8%float.
Proof.
  unfold getStats. cbv beta zeta.
  cbn [total highRatingCount satisfactionPercentage averageRating].
  rewrite count_all, count_high_ratings.
  split; [reflexivity|]. split; [reflexivity|]. split; [reflexivity|]. split.
  - destruct st; reflexivity.
  - repeat split; vm_compute; reflexivity.
Qed.

(** C1, read literally, fails: 29 of 200 records rated at least 4 make
    [round(100 * 29 / 200)] = 15, but the binary64 product [(29 / 200) *
    100] is just below 14.5 and [Math.round] gives 14. *)
Lemma claim_stats_fails : ~ claim_stats store_200.
Proof.
  intros [_ [H _]]. apply (f_equal Prim2SF) in H. vm_compute in H. discriminate H.
Qed.

(** ** The [publicOnly] listing: public records, safe fields *)

Lemma set_key_keeps (k : string) (c : Cond) (q : Query) (k' : string) (c' : Cond) :
  In (k', c') q -> k' <> k -> In (k', c') (set_key k c q).
Proof.
  induction q as [|[k0 c0] q IH]; simpl; [tauto|].
  intros [E|H] Hne.
  - injection E as E1 E2. subst k0 c0. destruct (String.eqb k k') eqn:B.
    + apply String.eqb_eq in B. congruence.
    + left. reflexivity.
  - destruct (String.eqb k k0); [right; exact H|right; exact (IH H Hne)].
Qed.

Lemma list_query_public (lp : ListParams) :
  lp.(lp_publicOnly) = "true" -> In ("isPublic", CEq (JBool true)) (list_query lp).
Proof.
  intros Hp. unfold list_query. rewrite Hp. cbv beta zeta.
  change (String.eqb "true" "true") with true. cbv iota.
  assert (H0 : In ("isPublic", CEq (JBool true)) (set_key "isPublic" (CEq (JBool true)) []))
    by (left; reflexivity).
  destruct (lp_status lp) as [s|]; [destruct (truthy_str (Some s))|];
    destruct (lp_priority lp) as [p|]; try destruct (truthy_str (Some p));
    repeat (apply set_key_keeps; [|discriminate]); exact H0.
Qed.

Lemma prop_isPublic (d : Feedback) : prop (doc_fields d) "isPublic" = Some (JBool d.(isPublic)).
Proof.
  destruct d as [i n e [c|] m r s [ip|] [ua|] pub pr tg t]; vm_compute; reflexivity.
Qed.

Lemma insert_desc_in (x y : Feedback) (l : list Feedback) :
  In x (insert_desc y l) -> x = y \/ In x l.
Proof.
  induction l as [|z l IH]; simpl.
  - intros [E|[]]. left. congruence.
  - destruct (createdAt z <=? createdAt y); simpl.
    + intros [E|H]; [left; congruence|right; exact H].
    + intros [E|H]; [right; left; exact E|].
      destruct (IH H) as [E|H']; [left; exact E|right; right; exact H'].
Qed.

Lemma sort_desc_in (x : Feedback) (l : list Feedback) : In x (sort_desc l) -> In x l.
Proof.
  induction l as [|y l IH]; simpl; [tauto|].
  intros H. destruct (insert_desc_in _ _ _ H); [left; congruence|right; exact (IH H0)].
Qed.

Lemma mongo_limit_in {A} (n : Z) (l : list A) (x : A) : In x (mongo_limit n l) -> In x l.
Proof.
  unfold mongo_limit. destruct (n =? 0); [tauto|].
  intros H. rewrite <- (firstn_skipn (Z.to_nat (Z.abs n)) l). apply in_or_app. left. exact H.
Qed.

Lemma skipn_in {A} (k : nat) (l : list A) (x : A) : In x (skipn k l) -> In x l.
Proof.
  intros H. rewrite <- (firstn_skipn k l). apply in_or_app. right. exact H.
Qed.

Lemma public_item_fields (d : Feedback) :
  let it := project (parse_select publicSelect) d in
  prop it "_id" = None /\ prop it "email" = None
  /\ prop it "ipAddress" = None /\ prop it "userAgent" = None.
Proof.
  destruct d as [i n e [c|] m r s [ip|] [ua|] pub pr tg t]; vm_compute;
    repeat split; reflexivity.
Qed.

(** In [publicOnly] mode, whatever the other parameters, every listed item
    is the projection of a stored public record and has no [_id],
    [email], [ipAddress] or [userAgent] field. *)
Theorem listPaged_public_items (st : Store) (lp : ListParams) (items : list JObject)
  (pg : Pagination) :
  lp.(lp_publicOnly) = "true" ->
  listPaged st lp = Some (items, pg) ->
  exists docs, items = map (project (parse_select publicSelect)) docs
               /\ (forall d, In d docs -> In d st /\ d.(isPublic) = true)
               /\ Forall (fun it => prop it "_id" = None /\ prop it "email" = None
                                    /\ prop it "ipAddress" = None
                                    /\ prop it "userAgent" = None) items.
Proof.
  intros Hp Hl. unfold listPaged in Hl. rewrite Hp in Hl. cbv beta zeta in Hl.
  change (String.eqb "true" "true") with true in Hl. cbv iota in Hl.
  destruct (_ <? 0); [discriminate Hl|]. injection Hl as <- _.
  unfold find_sorted.
  eexists. split; [reflexivity|]. split.
  - intros d Hd.
    apply mongo_limit_in, skipn_in, sort_desc_in, filter_In in Hd as [Hin Hm].
    split; [exact Hin|].
    unfold matches in Hm. rewrite forallb_forall in Hm.
    specialize (Hm _ (list_query_public lp Hp)). cbn [fst snd cond_holds] in Hm.
    rewrite prop_isPublic in Hm. simpl in Hm. destruct (isPublic d); [reflexivity|discriminate Hm].
  - apply Forall_map, Forall_forall. intros d _. apply public_item_fields.
Qed.

Lemma listPaged_public_items_witness :
  lp_publicOnly (mkListParams 1 10 None None "true") = "true"
  /\ listPaged store_five (mkListParams 1 10 None None "true")
     = Some (map (project (parse_select publicSelect)) (rev (filter isPublic store_five)), mkPagination 1 (Fin 1) 4 10 false false)
  /\ exists docs, map (project (parse_select publicSelect)) (rev (filter isPublic store_five)) = map (project (parse_select publicSelect)) docs
       /\ (forall d, In d docs -> In d store_five /\ d.(isPublic) = true)
       /\ Forall (fun it => prop it "_id" = None /\ prop it "email" = None
                            /\ prop it "ipAddress" = None /\ prop it "userAgent" = None)
            (map (project (parse_select publicSelect)) (rev (filter isPublic store_five))).
Proof.
  assert (H : listPaged store_five (mkListParams 1 10 None None "true")
              = Some (map (project (parse_select publicSelect)) (rev (filter isPublic store_five)), mkPagination 1 (Fin 1) 4 10 false false))
    by (vm_compute; reflexivity).
  exact (conj eq_refl (conj H (listPaged_public_items store_five (mkListParams 1 10 None None "true") _ _ eq_refl H))).
Defined.

Lemma submit_badrequest_single_witness :
  submit [] env0 body_two_errors
    = (BadRequest "Name must be at least 2 characters long"
         ["Name must be at least 2 characters long"], [])
  /\ ["Name must be at least 2 characters long"]
     = ["Name must be at least 2 characters long"].
Proof.
  assert (H : submit [] env0 body_two_errors
              = (BadRequest "Name must be at least 2 characters long"
                   ["Name must be at least 2 characters long"], []))
    by (vm_compute; reflexivity).
  exact (conj H (submit_badrequest_single _ _ _ _ _ _ H)).
Defined.

(** ** Submitting twice *)

(** The record a successful [POST /] stores: the auto-tagged document
    built from the draft. *)
Lemma save_some (env : Env) (d : Draft) (f : Feedback) :
  save env d = Some f ->
  schema_valid d = true
  /\ f = autoTag true
           (mkFeedback env.(fresh_id)
              (match d.(dname) with Some s => s | None => "" end)
              (match d.(demail) with Some s => s | None => "" end)
              d.(dcontactNumber)
              (match d.(dmessage) with Some s => s | None => "" end)
              d.(drating) d.(dstatus) d.(dipAddress) d.(duserAgent) d.(disPublic)
              d.(dpriority) d.(dtags) env.(now)).
Proof.
  unfold save. destruct (schema_valid d); [|discriminate]. intros H. injection H as <-. auto.
Qed.

(** X4: a second submission from the same address, in any letter case, up to
    an hour after a stored one (the hour included) is refused as a
    duplicate (429) once it passes validation, and the store keeps the
    first record alone. *)
Theorem submit_twice_duplicate (st : Store) (env env' : Env) (body body' : JObject)
  (rep : Reply) (f : Feedback) (em em' : string) :
  submit st env body = (rep, app st [f]) ->
  str_prop body "email" = Some em ->
  joi_validate true feedbackValidation body' = JoiOk body' ->
  str_prop body' "email" = Some em' ->
  toLowerCase em' = toLowerCase em ->
  env'.(now) <= env.(now) + oneHourMs ->
  submit (app st [f]) env' body' = (DuplicateSubmission, app st [f]).
Proof.
  intros H1 He Hv' He' Hcase Ht.
  destruct (submit_stored _ _ _ _ _ H1) as [Hs _].
  apply save_some in Hs as [_ Hf].
  assert (Hfe : f.(email) = toLowerCase (trim em) /\ f.(createdAt) = env.(now)).
  { rewrite Hf. destruct (autoTag_keeps true (mkFeedback env.(fresh_id)
      (match dname (newFeedback body env) with Some s => s | None => "" end)
      (match demail (newFeedback body env) with Some s => s | None => "" end)
      (dcontactNumber (newFeedback body env))
      (match dmessage (newFeedback body env) with Some s => s | None => "" end)
      (drating (newFeedback body env)) (dstatus (newFeedback body env))
      (dipAddress (newFeedback body env)) (duserAgent (newFeedback body env))
      (disPublic (newFeedback body env)) (dpriority (newFeedback body env))
      (dtags (newFeedback body env)) env.(now))) as (_ & _ & Hem & _ & _ & _ & _ & Hc).
    rewrite Hem, Hc. simpl. unfold newFeedback. simpl. rewrite He. simpl. auto. }
  destruct Hfe as [Hfe Hfc].
  unfold submit. rewrite Hv', He'. cbv beta zeta.
  destruct (find _ (app st [f])) eqn:F; [reflexivity|].
  exfalso. apply find_none with (x := f) in F; [|apply in_or_app; right; left; reflexivity].
  rewrite Hfe, Hcase, cast_lower_email, String.eqb_refl in F. simpl in F.
  apply Z.leb_gt in F. lia.
Qed.

Lemma submit_twice_duplicate_witness :
  submit [] env0 body_ok = (fst (submit [] env0 body_ok), app [] [stored_ok])
  /\ submit (app [] [stored_ok]) env1 body_ok_upper = (DuplicateSubmission, app [] [stored_ok]).
Proof.
  assert (H1 : submit [] env0 body_ok = (fst (submit [] env0 body_ok), app [] [stored_ok]))
    by (vm_compute; reflexivity).
  assert (H2 : joi_validate true feedbackValidation body_ok_upper = JoiOk body_ok_upper)
    by (vm_compute; reflexivity).
  exact (conj H1 (submit_twice_duplicate [] env0 env1 body_ok body_ok_upper _ stored_ok
                    "Alice@Example.com" "ALICE@example.COM" H1 eq_refl H2 eq_refl eq_refl
                    ltac:(vm_compute; congruence))).
Defined.

Lemma len_between_short (lo hi : nat) (s : string) :
  (String.length s < lo)%nat -> len_between lo hi s = false.
Proof.
  intros H. unfold len_between. replace (Nat.leb lo (String.length s)) with false; [reflexivity|].
  symmetry. apply Nat.leb_gt. exact H.
Qed.

(** No stored record from this (trimmed, lowercased) address is recent:
    the duplicate check of [POST /] finds nothing. *)
Lemma find_recent_none (st : Store) (env : Env) (em : string) :
  (forall r, In r st -> r.(email) = toLowerCase (trim em) ->
             r.(createdAt) < env.(now) - oneHourMs) ->
  find (fun r => String.eqb r.(email) (cast_email (toLowerCase em))
                 && (env.(now) - oneHourMs <=? r.(createdAt)))%bool st = None.
Proof.
  intros H. apply find_none_iff. intros r Hr. rewrite cast_lower_email.
  destruct (String.eqb_spec r.(email) (toLowerCase (trim em))) as [E|E]; [|reflexivity].
  specialize (H r Hr E). simpl. apply Z.leb_gt. exact H.
Qed.

(** X3: a submission that passes the Joi validation and is not a recent
    duplicate, but that the Mongoose schema refuses after its setters (an
    email that, trimmed and lowercased, is outside the schema's regular
    expression, such as one with a '+', or a name, contact number or
    message too short once trimmed), is answered 500 and nothing is
    stored. *)
Theorem submit_schema_rejects_after_joi (st : Store) (env : Env) (body : JObject)
  (nm em cn msg : string) :
  joi_validate true feedbackValidation body = JoiOk body ->
  str_prop body "name" = Some nm ->
  str_prop body "email" = Some em ->
  str_prop body "contactNumber" = Some cn ->
  str_prop body "message" = Some msg ->
  (forall r, In r st -> r.(email) = toLowerCase (trim em) ->
             r.(createdAt) < env.(now) - oneHourMs) ->
  mongoose_email_match (toLowerCase (trim em)) = false
  \/ (String.length (trim nm) < 2)%nat
  \/ (String.length (trim cn) < 10)%nat
  \/ (String.length (trim msg) < 10)%nat ->
  submit st env body = (ServerError, st).
Proof.
  intros Hv Hn He Hc Hm Hnew Hbad.
  assert (Hs : schema_valid (newFeedback body env) = false).
  { unfold schema_valid, newFeedback. cbn [dname demail dcontactNumber dmessage].
    rewrite Hn, He, Hc, Hm. cbn [option_map]. unfold required_str.
    destruct Hbad as [Hb | [Hb | [Hb | Hb]]].
    - rewrite Hb. rewrite !andb_false_r. reflexivity.
    - rewrite (len_between_short 2 100 _ Hb). rewrite !andb_false_r. reflexivity.
    - rewrite (len_between_short 10 20 _ Hb). rewrite !andb_false_r, !andb_false_l.
      reflexivity.
    - rewrite (len_between_short 10 1000 _ Hb). rewrite !andb_false_r, !andb_false_l.
      reflexivity. }
  unfold submit. rewrite Hv, He. cbv beta zeta. rewrite find_recent_none by exact Hnew.
  unfold save. rewrite Hs. reflexivity.
Qed.

Lemma submit_schema_rejects_after_joi_witness :
  joi_validate true feedbackValidation body_plus = JoiOk body_plus
  /\ submit [] env0 body_plus = (ServerError, []).
Proof.
  assert (Hv : joi_validate true feedbackValidation body_plus = JoiOk body_plus)
    by (vm_compute; reflexivity).
  split; [exact Hv|].
  apply (submit_schema_rejects_after_joi [] env0 body_plus "Alice Smith" "Alice+news@Example.com"
           "0123456789" "Great app, but I hit an error on login" Hv eq_refl eq_refl eq_refl eq_refl).
  - intros r [].
  - left. vm_compute. reflexivity.
Defined.

(** ** The records the API can produce *)

Lemma save_new_record (env : Env) (body : JObject) (f : Feedback) :
  save env (newFeedback body env) = Some f ->
  f.(rating) = 5 /\ f.(status) = "new" /\ f.(isPublic) = true
  /\ (f.(priority) = "medium" \/ f.(priority) = "high").
Proof.
  intros H. apply save_some in H as [_ ->].
  match goal with |- context [autoTag true ?d] =>
    destruct (autoTag_keeps true d) as (_ & _ & _ & _ & Hr & Hs & Hp & _);
    rewrite Hr, Hs, Hp, (autoTag_priority d) end.
  simpl. repeat split.
  destruct (_ || _)%bool; [right|left]; reflexivity.
Qed.

Lemma remove_by_id_incl (id : Z) (st : Store) (x : Feedback) :
  In x (remove_by_id id st) -> In x st.
Proof.
  induction st as [|r st IH]; simpl; [tauto|].
  destruct (r.(_id) =? id); simpl; [tauto|]. intros [H|H]; [left; exact H|right; auto].
Qed.

Lemma api_step_records (P : Feedback -> Prop) (st st' : Store) :
  (forall env body f, save env (newFeedback body env) = Some f -> P f) ->
  api_step st st' -> Forall P st -> Forall P st'.
Proof.
  intros Hsave Hs Hst. destruct Hs as [st env body | st key raw id].
  - destruct (submit st env body) as [rep st'] eqn:E. simpl.
    destruct (submit_cases _ _ _ _ _ E) as [->|[f [Hf [-> _]]]]; [exact Hst|].
    apply Forall_app. split; [exact Hst|]. constructor; [exact (Hsave _ _ _ Hf)|constructor].
  - unfold deleteById. destruct (str_neq _ _); [exact Hst|].
    destruct (find _ st); [|exact Hst]. simpl.
    rewrite Forall_forall in *. intros x Hx. exact (Hst x (remove_by_id_incl _ _ _ Hx)).
Qed.

Lemma reachable_inv (st : Store) :
  reachable st ->
  Forall (fun r => r.(rating) = 5 /\ r.(status) = "new" /\ r.(isPublic) = true
                   /\ (r.(priority) = "medium" \/ r.(priority) = "high")) st.
Proof.
  induction 1 as [|st st' _ IH Hs]; [constructor|].
  exact (api_step_records _ _ _ save_new_record Hs IH).
Qed.

(** X6: starting from the empty collection, whatever sequence of
    submissions and deletions the API serves, every stored record has
    rating 5, status "new", isPublic true and priority "medium" or
    "high": no route of the API sets a rating, a status, a visibility or
    the priorities "low" and "urgent". *)
Theorem reachable_records (st : Store) :
  reachable st ->
  Forall (fun r => r.(rating) = 5 /\ r.(status) = "new" /\ r.(isPublic) = true
                   /\ (r.(priority) = "medium" \/ r.(priority) = "high")) st.
Proof. apply reachable_inv. Qed.

Lemma reachable_records_witness :
  reachable (snd (submit [] env0 body_ok))
  /\ Forall (fun r => r.(rating) = 5 /\ r.(status) = "new" /\ r.(isPublic) = true
                      /\ (r.(priority) = "medium" \/ r.(priority) = "high"))
            (snd (submit [] env0 body_ok)).
Proof.
  assert (R : reachable (snd (submit [] env0 body_ok)))
    by exact (reach_step [] _ reach_empty (step_submit [] env0 body_ok)).
  exact (conj R (reachable_records _ R)).
Defined.

Lemma prop_status (d : Feedback) : prop (doc_fields d) "status" = Some (JStr d.(status)).
Proof.
  destruct d as [i n e [c|] m r s [ip|] [ua|] pub pr tg t]; vm_compute; reflexivity.
Qed.

Lemma prop_priority (d : Feedback) : prop (doc_fields d) "priority" = Some (JStr d.(priority)).
Proof.
  destruct d as [i n e [c|] m r s [ip|] [ua|] pub pr tg t]; vm_compute; reflexivity.
Qed.

Lemma count_all_match (st : Store) (q : Query) :
  (forall d, In d st -> matches q d = true) -> countDocuments st q = countDocuments st [].
Proof.
  intros H. unfold countDocuments. do 2 f_equal.
  induction st as [|d st IH]; simpl; [reflexivity|].
  rewrite (H d (or_introl eq_refl)). f_equal. apply IH. intros x Hx. exact (H x (or_intror Hx)).
Qed.

Lemma count_no_match (st : Store) (q : Query) :
  (forall d, In d st -> matches q d = false) -> countDocuments st q = 0.
Proof.
  intros H. unfold countDocuments.
  replace (filter (matches q) st) with (@nil Feedback); [reflexivity|].
  induction st as [|d st IH]; simpl; [reflexivity|].
  rewrite (H d (or_introl eq_refl)). apply IH. intros x Hx. exact (H x (or_intror Hx)).
Qed.

Lemma matches_str (k v : string) (d : Feedback) :
  prop (doc_fields d) k = Some (JStr v) ->
  forall w, matches [(k, CEq (JStr w))] d = String.eqb v w.
Proof. intros H w. unfold matches. simpl. rewrite H. simpl. apply andb_true_r. Qed.

(** X7: on every collection the API can produce, [getStats] counts every
    record as new and as rated at least 4, and counts no read, responded
    or urgent record. *)
Theorem reachable_stats (st : Store) :
  reachable st ->
  let s := getStats st in
  s.(newCount) = s.(total) /\ s.(read) = 0 /\ s.(responded) = 0 /\ s.(urgent) = 0
  /\ s.(highRatingCount) = s.(total).
Proof.
  intros R. apply reachable_inv in R. rewrite Forall_forall in R. unfold getStats. simpl.
  repeat split.
  - apply count_all_match. intros d Hd. rewrite (matches_str _ _ d (prop_status d)).
    destruct (R d Hd) as (_ & -> & _). reflexivity.
  - apply count_no_match. intros d Hd. rewrite (matches_str _ _ d (prop_status d)).
    destruct (R d Hd) as (_ & -> & _). reflexivity.
  - apply count_no_match. intros d Hd. rewrite (matches_str _ _ d (prop_status d)).
    destruct (R d Hd) as (_ & -> & _). reflexivity.
  - apply count_no_match. intros d Hd. rewrite (matches_str _ _ d (prop_priority d)).
    destruct (R d Hd) as (_ & _ & _ & [-> | ->]); reflexivity.
  - apply count_all_match. intros d Hd. unfold matches. simpl. rewrite prop_rating.
    destruct (R d Hd) as (-> & _). reflexivity.
Qed.

Lemma reachable_stats_witness :
  reachable (snd (submit [] env0 body_ok))
  /\ (let s := getStats (snd (submit [] env0 body_ok)) in
      s.(newCount) = s.(total) /\ s.(read) = 0 /\ s.(responded) = 0 /\ s.(urgent) = 0
      /\ s.(highRatingCount) = s.(total)).
Proof.
  assert (R : reachable (snd (submit [] env0 body_ok)))
    by exact (reach_step [] _ reach_empty (step_submit [] env0 body_ok)).
  exact (conj R (reachable_stats _ R)).
Defined.

Lemma admin_item_fields (d : Feedback) :
  let it := project (parse_select "-ipAddress -userAgent") d in
  prop it "_id" = Some (JNum d.(_id)) /\ prop it "email" = Some (JStr d.(email))
  /\ prop it "ipAddress" = None /\ prop it "userAgent" = None.
Proof.
  destruct d as [i n e [c|] m r s [ip|] [ua|] pub pr tg t]; vm_compute;
    repeat split; reflexivity.
Qed.

(** X5: [GET /:id] answers with an item only for the first stored record
    with that id, and only when it is public and not archived; the item
    carries the record's _id and its email address (the public listings
    hide the email), but neither ipAddress nor userAgent. *)
Theorem getById_item (st : Store) (id : Z) (it : JObject) :
  getById st id = Some it ->
  exists d, find (fun r => r.(_id) =? id) st = Some d
    /\ d.(isPublic) = true /\ d.(status) <> "archived"
    /\ prop it "_id" = Some (JNum id) /\ prop it "email" = Some (JStr d.(email))
    /\ prop it "ipAddress" = None /\ prop it "userAgent" = None.
Proof.
  unfold getById. destruct (find _ st) as [d|] eqn:F; [|discriminate].
  destruct (isPublic d) eqn:P; [|discriminate]. simpl.
  destruct (String.eqb_spec (status d) "archived") as [_|A]; [discriminate|].
  intros H. injection H as <-. exists d.
  apply find_some in F as [_ Fi]. apply Z.eqb_eq in Fi.
  destruct (admin_item_fields d) as (H1 & H2 & H3 & H4). rewrite <- Fi.
  repeat split; assumption.
Qed.

Lemma getById_item_witness :
  exists d, find (fun r => r.(_id) =? 3) store_five = Some d
    /\ d.(isPublic) = true /\ d.(status) <> "archived"
    /\ prop (match getById store_five 3 with Some it => it | None => [] end) "_id" = Some (JNum 3)
    /\ prop (match getById store_five 3 with Some it => it | None => [] end) "email"
       = Some (JStr d.(email))
    /\ prop (match getById store_five 3 with Some it => it | None => [] end) "ipAddress" = None
    /\ prop (match getById store_five 3 with Some it => it | None => [] end) "userAgent" = None.
Proof.
  apply (getById_item store_five 3). vm_compute. reflexivity.
Defined.

Lemma getById_some_of (st : Store) (d : Feedback) :
  In d st -> d.(isPublic) = true -> d.(status) <> "archived" ->
  (forall r, In r st -> r.(isPublic) = true /\ r.(status) <> "archived") ->
  getById st d.(_id) <> None.
Proof.
  intros Hd _ _ Hall. unfold getById.
  destruct (find (fun r => r.(_id) =? d.(_id)) st) as [r|] eqn:F.
  - apply find_some in F as [Hr _]. destruct (Hall r Hr) as [-> A].
    apply String.eqb_neq in A. simpl. rewrite A. discriminate.
  - exfalso. apply (find_none _ _ F d) in Hd. rewrite Z.eqb_refl in Hd. discriminate.
Qed.

(** X8: on every collection the API can produce, [GET /:id] serves every
    stored record: no stored id is answered 404. *)
Theorem reachable_getById (st : Store) (d : Feedback) :
  reachable st -> In d st -> getById st d.(_id) <> None.
Proof.
  intros R Hd. apply reachable_inv in R. rewrite Forall_forall in R.
  assert (Hall : forall r, In r st -> r.(isPublic) = true /\ r.(status) <> "archived").
  { intros r Hr. destruct (R r Hr) as (_ & Hs & Hp & _). rewrite Hs. split; [exact Hp|discriminate]. }
  destruct (Hall d Hd) as [Hp Hs]. exact (getById_some_of st d Hd Hp Hs Hall).
Qed.

Lemma reachable_getById_witness :
  reachable (snd (submit [] env0 body_ok))
  /\ In stored_ok (snd (submit [] env0 body_ok))
  /\ getById (snd (submit [] env0 body_ok)) stored_ok.(_id) <> None.
Proof.
  assert (R : reachable (snd (submit [] env0 body_ok)))
    by exact (reach_step [] _ reach_empty (step_submit [] env0 body_ok)).
  assert (I : In stored_ok (snd (submit [] env0 body_ok))) by (vm_compute; left; reflexivity).
  exact (conj R (conj I (reachable_getById _ _ R I))).
Defined.

(** ** Pagination of [GET /] *)

Lemma insert_desc_length (x : Feedback) (l : list Feedback) :
  List.length (insert_desc x l) = S (List.length l).
Proof.
  induction l as [|y l IH]; simpl; [reflexivity|].
  destruct (y.(createdAt) <=? x.(createdAt)); simpl; [reflexivity|]. rewrite IH. reflexivity.
Qed.

Lemma sort_desc_length (l : list Feedback) : List.length (sort_desc l) = List.length l.
Proof.
  induction l as [|x l IH]; simpl; [reflexivity|].
  unfold sort_desc in *. simpl. rewrite insert_desc_length, IH. reflexivity.
Qed.

Lemma listPaged_some (st : Store) (lp : ListParams) :
  0 <= (lp.(lp_page) - 1) * lp.(lp_limit) ->
  listPaged st lp =
  Some (find_sorted st (list_query lp) (Z.to_nat ((lp.(lp_page) - 1) * lp.(lp_limit)))
          lp.(lp_limit)
          (parse_select (if String.eqb lp.(lp_publicOnly) "true" then publicSelect else adminSelect)),
        mkPagination lp.(lp_page) (ceil_div (countDocuments st (list_query lp)) lp.(lp_limit))
          (countDocuments st (list_query lp)) lp.(lp_limit)
          (match ceil_div (countDocuments st (list_query lp)) lp.(lp_limit) with
           | Fin t => lp.(lp_page) <? t | PosInfinity => true | NaN => false end)
          (1 <? lp.(lp_page))).
Proof.
  intros H. unfold listPaged. cbv zeta.
  replace ((lp_page lp - 1) * lp_limit lp <? 0) with false by (symmetry; apply Z.ltb_ge; exact H).
  reflexivity.
Qed.

Lemma countDocuments_nonneg (st : Store) (q : Query) : 0 <= countDocuments st q.
Proof. unfold countDocuments. lia. Qed.

(** X9: with a positive limit and a page from 1 on, [GET /] returns the
    page's share of the matching records, [min(limit, total - skip)] items
    (none past the end), reports the count of all matching records, and
    announces a next page exactly when [page * limit < total] and a
    previous one exactly when [page > 1]. *)
Theorem listPaged_pages (st : Store) (lp : ListParams) :
  0 < lp.(lp_limit) -> 1 <= lp.(lp_page) ->
  let total := countDocuments st (list_query lp) in
  exists items pg, listPaged st lp = Some (items, pg)
    /\ Z.of_nat (List.length items)
       = Z.min lp.(lp_limit) (Z.max 0 (total - (lp.(lp_page) - 1) * lp.(lp_limit)))
    /\ pg.(totalItems) = total
    /\ pg.(hasNextPage) = (lp.(lp_page) * lp.(lp_limit) <? total)
    /\ pg.(hasPrevPage) = (1 <? lp.(lp_page)).
Proof.
  intros Hl Hp total. rewrite listPaged_some by nia.
  do 2 eexists. split; [reflexivity|]. cbn [totalItems hasNextPage hasPrevPage].
  split; [|split; [reflexivity|split; [|reflexivity]]].
  - unfold find_sorted, mongo_limit. rewrite length_map.
    replace (lp_limit lp =? 0) with false by (symmetry; apply Z.eqb_neq; lia).
    rewrite length_firstn, length_skipn, sort_desc_length.
    fold (countDocuments st (list_query lp)). fold total.
    assert (Ht : total = Z.of_nat (List.length (filter (matches (list_query lp)) st))) by reflexivity.
    rewrite Nat2Z.inj_min, Nat2Z.inj_sub_max, Z2Nat.id by lia.
    rewrite Z2Nat.id by nia. rewrite Z.abs_eq by lia. rewrite <- Ht. lia.
  - unfold ceil_div. replace (lp_limit lp =? 0) with false by (symmetry; apply Z.eqb_neq; lia).
    fold total. assert (Ht := countDocuments_nonneg st (list_query lp)). fold total in Ht.
    assert (Hd := Z.div_mod (- total) (lp_limit lp) ltac:(lia)).
    assert (Hm := Z.mod_pos_bound (- total) (lp_limit lp) Hl).
    set (q := (- total) / lp_limit lp) in *. set (r := (- total) mod lp_limit lp) in *.
    destruct (Z.ltb_spec (lp_page lp) (- q)); destruct (Z.ltb_spec (lp_page lp * lp_limit lp) total);
      try reflexivity; nia.
Qed.

Lemma listPaged_pages_witness :
  0 < 2 /\ 1 <= 2
  /\ exists items pg, listPaged store_five (mkListParams 2 2 None None "true") = Some (items, pg)
    /\ Z.of_nat (List.length items)
       = Z.min 2 (Z.max 0 (countDocuments store_five (list_query (mkListParams 2 2 None None "true"))
                           - (2 - 1) * 2))
    /\ pg.(totalItems) = countDocuments store_five (list_query (mkListParams 2 2 None None "true"))
    /\ pg.(hasNextPage)
       = (2 * 2 <? countDocuments store_five (list_query (mkListParams 2 2 None None "true")))
    /\ pg.(hasPrevPage) = (1 <? 2).
Proof.
  split; [lia|]. split; [lia|].
  exact (listPaged_pages store_five (mkListParams 2 2 None None "true") ltac:(simpl; lia) ltac:(simpl; lia)).
Defined.

(** X10: [limit=0] switches pagination off: whatever the page, [GET /]
    returns every matching record, newest first, reports [totalPages] as
    Infinity (NaN when nothing matches), and announces a next page
    whenever something matches, on every page. *)
Theorem listPaged_limit_zero (st : Store) (lp : ListParams) :
  lp.(lp_limit) = 0 ->
  let total := countDocuments st (list_query lp) in
  exists pg, listPaged st lp =
    Some (map (project (parse_select (if String.eqb lp.(lp_publicOnly) "true"
                                      then publicSelect else adminSelect)))
              (sort_desc (filter (matches (list_query lp)) st)), pg)
    /\ pg.(totalPages) = (if total =? 0 then NaN else PosInfinity)
    /\ pg.(hasNextPage) = (0 <? total).
Proof.
  intros H0 total. rewrite listPaged_some by (rewrite H0; lia).
  eexists. split; [|split].
  - rewrite H0, Z.mul_0_r. reflexivity.
  - reflexivity.
  - cbn [hasNextPage]. unfold ceil_div. rewrite Z.eqb_refl.
    assert (Ht := countDocuments_nonneg st (list_query lp)). fold total in Ht; fold total.
    destruct (Z.eqb_spec total 0) as [->|E]; [reflexivity|].
    symmetry. apply Z.ltb_lt. lia.
Qed.

Lemma listPaged_limit_zero_witness :
  exists pg, listPaged store_five (mkListParams 7 0 None None "true") =
    Some (map (project (parse_select publicSelect))
              (sort_desc (filter (matches (list_query (mkListParams 7 0 None None "true")))
                                 store_five)), pg)
    /\ pg.(totalPages) = PosInfinity /\ pg.(hasNextPage) = true.
Proof.
  exact (listPaged_limit_zero store_five (mkListParams 7 0 None None "true") eq_refl).
Defined.

(** X11: a negative limit is answered 500 on every page after the first;
    where it is answered, at most [-limit] items come back, and page 1
    announces no next page, however many records match. *)
Theorem listPaged_negative_limit (st : Store) (lp : ListParams) :
  lp.(lp_limit) < 0 ->
  (listPaged st lp = None <-> 1 < lp.(lp_page))
  /\ forall items pg, listPaged st lp = Some (items, pg) ->
       (Z.of_nat (List.length items) <= - lp.(lp_limit))
       /\ (1 <= lp.(lp_page) -> pg.(hasNextPage) = false).
Proof.
  intros Hl. split.
  - unfold listPaged. cbv zeta. destruct (Z.ltb_spec ((lp_page lp - 1) * lp_limit lp) 0).
    + split; [intros _; nia|reflexivity].
    + split; [discriminate|intros; nia].
  - intros items pg H.
    destruct (Z.ltb_spec ((lp_page lp - 1) * lp_limit lp) 0) as [N|N].
    + unfold listPaged in H. cbv zeta in H. rewrite (proj2 (Z.ltb_lt _ _) N) in H. discriminate.
    + rewrite listPaged_some in H by exact N. injection H as <- <-. split.
      * unfold find_sorted, mongo_limit. rewrite length_map.
        replace (lp_limit lp =? 0) with false by (symmetry; apply Z.eqb_neq; lia).
        rewrite length_firstn. rewrite Nat2Z.inj_min, Z2Nat.id by lia. lia.
      * intros Hp. cbn [hasNextPage]. unfold ceil_div.
        replace (lp_limit lp =? 0) with false by (symmetry; apply Z.eqb_neq; lia).
        apply Z.ltb_ge.
        assert (Ht := countDocuments_nonneg st (list_query lp)).
        set (t := countDocuments st (list_query lp)) in *.
        assert (Hd := Z.div_mod (- t) (lp_limit lp) ltac:(lia)).
        assert (Hm := Z.mod_neg_bound (- t) (lp_limit lp) Hl).
        assert (lp_page lp <= 1) by nia. assert (0 <= (- t) / lp_limit lp) by nia. lia.
Qed.

Lemma listPaged_negative_limit_witness :
  (listPaged store_five (mkListParams 1 (-2) None None "true") = None <-> 1 < 1)
  /\ forall items pg, listPaged store_five (mkListParams 1 (-2) None None "true") = Some (items, pg) ->
       (Z.of_nat (List.length items) <= - (-2)) /\ (1 <= 1 -> pg.(hasNextPage) = false).
Proof.
  exact (listPaged_negative_limit store_five (mkListParams 1 (-2) None None "true") ltac:(simpl; lia)).
Defined.

(** ** [DELETE /:id] and what follows it *)

Lemma remove_by_id_spec (id : Z) (st : Store) (r : Feedback) :
  NoDup (map _id st) -> In r (remove_by_id id st) <-> In r st /\ r.(_id) <> id.
Proof.
  induction st as [|x st IH]; simpl; intros N; [tauto|].
  inversion N as [|? ? Nx N']; subst.
  destruct (Z.eqb_spec x.(_id) id) as [E|E]; simpl.
  - split.
    + intros H. split; [right; exact H|]. intros Er. apply Nx. rewrite E, <- Er.
      apply in_map. exact H.
    + intros [[<-|H] Hr]; [contradiction|exact H].
  - rewrite (IH N'). split.
    + intros [<-|[H Hr]]; [split; [left; reflexivity|exact E]|split; [right; exact H|exact Hr]].
    + intros [[<-|H] Hr]; [left; reflexivity|right; split; assumption].
Qed.

Lemma remove_by_id_length (id : Z) (st : Store) (d : Feedback) :
  find (fun r => r.(_id) =? id) st = Some d ->
  S (List.length (remove_by_id id st)) = List.length st.
Proof.
  induction st as [|x st IH]; simpl; [discriminate|].
  destruct (x.(_id) =? id); [reflexivity|]. intros H. simpl. rewrite (IH H). reflexivity.
Qed.

Lemma remove_by_id_nodup (id : Z) (st : Store) :
  NoDup (map _id st) -> NoDup (map _id (remove_by_id id st)).
Proof.
  induction st as [|x st IH]; simpl; intros N; [exact N|].
  inversion N as [|? ? Nx N']; subst.
  destruct (x.(_id) =? id); [exact N'|]. simpl. constructor; [|exact (IH N')].
  intros H. apply Nx. apply in_map_iff in H as (r & Hr & Hin).
  rewrite <- Hr. apply in_map. apply (remove_by_id_incl id). exact Hin.
Qed.

(** X12: with ids unique, a [DELETE /:id] answered "deleted" removes
    exactly the record with that id and nothing else: the collection
    shrinks by one, [GET /:id] then answers 404, and repeating the same
    request answers 404 and leaves the collection as it is.  Any other
    answer leaves the collection unchanged. *)
Theorem deleteById_removes_one (st st' : Store) (ADMIN_KEY : option string)
  (raw : list (string * string)) (id : Z) (rep : Reply) :
  NoDup (map _id st) ->
  deleteById st ADMIN_KEY raw id = (rep, st') ->
  (rep <> Deleted -> st' = st)
  /\ (rep = Deleted ->
      (forall r, In r st' <-> In r st /\ r.(_id) <> id)
      /\ S (List.length st') = List.length st
      /\ getById st' id = None
      /\ deleteById st' ADMIN_KEY raw id = (NotFound, st')).
Proof.
  intros N. unfold deleteById. destruct (str_neq _ _) eqn:K.
  { intros H. injection H as <- <-. split; [reflexivity|discriminate]. }
  destruct (find (fun r => r.(_id) =? id) st) as [d|] eqn:F.
  2: { intros H. injection H as <- <-. split; [reflexivity|discriminate]. }
  intros H. injection H as <- <-. split; [intros C; contradiction|intros _].
  assert (Hin := fun r => remove_by_id_spec id st r N).
  assert (Hnone : find (fun r => r.(_id) =? id) (remove_by_id id st) = None).
  { apply find_none_iff. intros x Hx. apply Hin in Hx as [_ Hx]. apply Z.eqb_neq. exact Hx. }
  split; [exact Hin|]. split; [exact (remove_by_id_length id st d F)|]. split.
  - unfold getById. rewrite Hnone. reflexivity.
  - rewrite Hnone. reflexivity.
Qed.

Lemma deleteById_removes_one_witness :
  NoDup (map _id store_five)
  /\ deleteById store_five None [] 3 = (Deleted, remove_by_id 3 store_five)
  /\ ((Deleted <> Deleted -> remove_by_id 3 store_five = store_five)
      /\ (Deleted = Deleted ->
          (forall r, In r (remove_by_id 3 store_five) <-> In r store_five /\ r.(_id) <> 3)
          /\ S (List.length (remove_by_id 3 store_five)) = List.length store_five
          /\ getById (remove_by_id 3 store_five) 3 = None
          /\ deleteById (remove_by_id 3 store_five) None [] 3
             = (NotFound, remove_by_id 3 store_five))).
Proof.
  assert (N : NoDup (map _id store_five)).
  { vm_compute. repeat constructor; simpl; lia. }
  assert (D : deleteById store_five None [] 3 = (Deleted, remove_by_id 3 store_five))
    by (vm_compute; reflexivity).
  exact (conj N (conj D (deleteById_removes_one store_five _ None [] 3 Deleted N D))).
Defined.

(** ** scripts/migrate-ratings.js *)

Lemma has_path_appended (k : string) (v : JVal) (o : JObject) : has_path k (app o [(k, v)]) = true.
Proof. unfold has_path, prop. rewrite rev_app_distr. simpl. rewrite String.eqb_refl. reflexivity. Qed.

Lemma has_path_In (k : string) (o : JObject) :
  has_path k o = true <-> exists v, In (k, v) o.
Proof.
  unfold has_path, prop. split.
  - destruct (find _ (rev o)) as [[k' v]|] eqn:E; simpl; [|discriminate]. intros _.
    apply find_some in E as [Hin Heq]. cbn [fst] in Heq. apply String.eqb_eq in Heq. subst k'.
    exists v. rewrite in_rev. exact Hin.
  - intros [v Hin]. destruct (find _ (rev o)) eqn:E; [reflexivity|]. exfalso.
    rewrite in_rev in Hin. pose proof (find_none _ _ E (k, v) Hin) as F.
    cbn [fst] in F. rewrite String.eqb_refl in F. discriminate.
Qed.

Lemma has_path_set_path_keep (k k' : string) (v : JVal) (o : JObject) :
  has_path k o = true -> has_path k (set_path k' v o) = true.
Proof.
  rewrite !has_path_In. intros [w Hin]. unfold set_path. destruct (has_path k' o).
  - destruct (String.eqb k k') eqn:E.
    + apply String.eqb_eq in E. subst k'. exists v. apply in_map_iff.
      exists (k, w). cbn [fst]. rewrite String.eqb_refl. split; [reflexivity | exact Hin].
    + exists w. apply in_map_iff. exists (k, w). cbn [fst]. rewrite E. split; [reflexivity | exact Hin].
  - exists w. apply in_or_app. left. exact Hin.
Qed.

Lemma rating_fixed (now : Z) (o : JObject) :
  (if has_path "rating" o then o
   else set_path "updatedAt" (JNum now) (set_path "rating" (JNum 5) o))
  = (if has_path "rating" o then o
     else set_path "updatedAt" (JNum now) (app o [("rating", JNum 5)])).
Proof. unfold set_path at 2. destruct (has_path "rating" o); reflexivity. Qed.

Lemma count_without_rating_zero (docs : list JObject) :
  count_without_rating docs = 0 <-> forall o, In o docs -> has_path "rating" o = true.
Proof.
  unfold count_without_rating. induction docs as [|o docs IH]; simpl; [split; [tauto|reflexivity]|].
  destruct (has_path "rating" o) eqn:E; simpl.
  - rewrite IH. split; [intros H x [<-|Hx]; [exact E|exact (H x Hx)]|intros H x Hx; exact (H x (or_intror Hx))].
  - split; [lia|]. intros H. rewrite (H o (or_introl eq_refl)) in E. discriminate.
Qed.

Lemma migrated_all_rated (now : Z) (docs : list JObject) (o : JObject) :
  In o (fst (update_missing_ratings now docs)) -> has_path "rating" o = true.
Proof.
  intros H. apply in_map_iff in H as (x & <- & _). rewrite rating_fixed.
  destruct (has_path "rating" x) eqn:E; [exact E|].
  apply has_path_set_path_keep, has_path_appended.
Qed.

(** X13: the rating migration reports the number of documents without a
    [rating] field and, when there are any, as many modified documents;
    afterwards every document has a [rating]: the documents that had one
    are unchanged, each of the others gets [rating: 5] appended and its
    [updatedAt] set to the time of the update (replaced in place, or
    appended when missing), no document is added or removed, and a second
    run, at any time, finds nothing to update and changes nothing. *)
Theorem migrateRatings_spec (now : Z) (docs docs' : list JObject) (n : Z) (m : option Z) :
  migrateRatings now docs = (n, m, docs') ->
  n = count_without_rating docs
  /\ m = (if 0 <? n then Some n else None)
  /\ List.length docs' = List.length docs
  /\ (forall i o, nth_error docs i = Some o ->
        nth_error docs' i
        = Some (if has_path "rating" o then o
                else set_path "updatedAt" (JNum now) (app o [("rating", JNum 5)])))
  /\ forall now', migrateRatings now' docs' = (0, None, docs').
Proof.
  unfold migrateRatings, update_missing_ratings.
  destruct (Z.ltb_spec 0 (count_without_rating docs)) as [Hp|Hz].
  - intros H. injection H as <- <- <-. rewrite (proj2 (Z.ltb_lt _ _) Hp).
    split; [reflexivity|]. split; [reflexivity|]. split; [apply length_map|]. split.
    + intros i o Hi. rewrite nth_error_map, Hi. simpl. rewrite rating_fixed. reflexivity.
    + intros now'.
      assert (Z : count_without_rating
                    (map (fun o => if has_path "rating" o then o
                                   else set_path "updatedAt" (JNum now)
                                          (set_path "rating" (JNum 5) o)) docs) = 0)
        by (apply count_without_rating_zero; intros o Ho;
            exact (migrated_all_rated now docs o Ho)).
      rewrite Z. reflexivity.
  - assert (Z : count_without_rating docs = 0) by (unfold count_without_rating in *; lia).
    intros H. injection H as <- <- <-. rewrite Z. split; [reflexivity|]. split; [reflexivity|].
    split; [reflexivity|]. split.
    + intros i o Hi. rewrite Hi.
      rewrite (proj1 (count_without_rating_zero docs) Z o (nth_error_In _ _ Hi)). reflexivity.
    + intros now'. reflexivity.
Qed.

Lemma migrateRatings_spec_witness :
  migrateRatings 1000 legacy_docs = (1, Some 1, fst (update_missing_ratings 1000 legacy_docs))
  /\ (1 = count_without_rating legacy_docs
      /\ Some 1 = (if 0 <? 1 then Some 1 else None)
      /\ List.length (fst (update_missing_ratings 1000 legacy_docs)) = List.length legacy_docs
      /\ (forall i o, nth_error legacy_docs i = Some o ->
            nth_error (fst (update_missing_ratings 1000 legacy_docs)) i
            = Some (if has_path "rating" o then o
                    else set_path "updatedAt" (JNum 1000) (app o [("rating", JNum 5)])))
      /\ forall now', migrateRatings now' (fst (update_missing_ratings 1000 legacy_docs))
                      = (0, None, fst (update_missing_ratings 1000 legacy_docs))).
Proof.
  assert (H : migrateRatings 1000 legacy_docs
              = (1, Some 1, fst (update_missing_ratings 1000 legacy_docs)))
    by (vm_compute; reflexivity).
  exact (conj H (migrateRatings_spec _ _ _ _ _ H)).
Defined.

(** ** Tags of the pre-save hook *)

Lemma set_dedup_from_sub (seen l : list string) (x : string) :
  In x (set_dedup_from seen l) -> In x l.
Proof.
  revert seen. induction l as [|a l IH]; simpl; intros seen; [tauto|].
  destruct (existsb (String.eqb a) seen).
  - intros H. right. exact (IH _ H).
  - intros [<-|H]; [left; reflexivity|right; exact (IH _ H)].
Qed.

Lemma set_dedup_from_nodup (l seen : list string) :
  NoDup (set_dedup_from seen l) /\ (forall x, In x (set_dedup_from seen l) -> ~ In x seen).
Proof.
  revert seen. induction l as [|a l IH]; simpl; intros seen; [split; [constructor|tauto]|].
  destruct (existsb (String.eqb a) seen) eqn:Ea; [apply IH|].
  destruct (IH (a :: seen)) as [N Hn]. split.
  - constructor; [|exact N]. intros H. exact (Hn a H (or_introl eq_refl)).
  - intros x [->|Hx] Hs.
    + apply Bool.not_true_iff_false in Ea. apply Ea. apply existsb_exists.
      exists x. split; [exact Hs|apply String.eqb_refl].
    + exact (Hn x Hx (or_intror Hs)).
Qed.

Lemma autoTag_tags_shape (b : bool) (d : Feedback) :
  ((b = false \/ d.(message) = "") /\ (autoTag b d).(tags) = d.(tags))
  \/ (b = true /\ d.(message) <> ""
      /\ exists A, (forall t, In t A -> In t ["bug-report"; "feature-request"; "mobile-app";
                                             "hardware"; "positive"; "negative"])
                   /\ (autoTag b d).(tags) = set_dedup (app d.(tags) A)).
Proof.
  unfold autoTag. destruct (b && negb (String.eqb (message d) ""))%bool eqn:H.
  - right. apply andb_prop in H as [-> H]. apply negb_true_iff, String.eqb_neq in H.
    split; [reflexivity|]. split; [exact H|].
    split_ifs; simpl; eexists; (split; [|reflexivity]); simpl; tauto.
  - left. split; [|reflexivity]. destruct b; [right|left; reflexivity].
    simpl in H. apply negb_false_iff, String.eqb_eq in H. exact H.
Qed.

(** X14: the pre-save hook never drops a tag the document had, adds only
    the six category tags, and, when it runs (a new document with a
    non-empty message), leaves no tag twice. *)
Theorem autoTag_tags (b : bool) (d : Feedback) :
  (forall t, In t d.(tags) -> In t (autoTag b d).(tags))
  /\ (forall t, In t (autoTag b d).(tags) ->
        In t d.(tags) \/ In t ["bug-report"; "feature-request"; "mobile-app";
                              "hardware"; "positive"; "negative"])
  /\ (b = true -> d.(message) <> "" -> NoDup (autoTag b d).(tags)).
Proof.
  destruct (autoTag_tags_shape b d) as [[Hc E]|(Hb & Hm & A & HA & E)].
  - rewrite E. split; [tauto|split; [tauto|]].
    intros -> Hm. destruct Hc as [C|C]; [discriminate C|contradiction].
  - rewrite E. unfold set_dedup. split; [|split].
    + intros t Ht. apply set_dedup_in. apply in_or_app. left. exact Ht.
    + intros t Ht. apply set_dedup_from_sub in Ht. apply in_app_or in Ht as [Ht|Ht];
        [left; exact Ht|right; exact (HA t Ht)].
    + intros _ _. apply set_dedup_from_nodup.
Qed.

(** ** Keys the request body may carry *)

Lemma joi_validate_ok_unknown (ks : list JoiKey) (body v : JObject) :
  joi_validate true ks body = JoiOk v -> joi_unknown true ks body = [].
Proof.
  intros H. assert (K := joi_validate_ok_keys _ _ _ _ H).
  unfold joi_validate in H. rewrite K in H. destruct (joi_unknown true ks body); [reflexivity|discriminate].
Qed.

Lemma joi_unknown_nonempty (ks : list JoiKey) (body : JObject) (k : string) (v : JVal) :
  In (k, v) body -> existsb (fun jk => String.eqb jk.(jkey) k) ks = false ->
  joi_unknown true ks body <> [].
Proof.
  intros Hin Hk. unfold joi_unknown.
  destruct (filter (fun kv => negb (existsb (fun jk => String.eqb jk.(jkey) (fst kv)) ks)) body)
    as [|kv r] eqn:F; [|discriminate].
  assert (Hf : In (k, v) (filter (fun kv => negb (existsb (fun jk => String.eqb jk.(jkey) (fst kv)) ks)) body))
    by (apply filter_In; split; [exact Hin|simpl; rewrite Hk; reflexivity]).
  rewrite F in Hf. contradiction.
Qed.

(** X15: [POST /] accepts no field beyond name, email, contactNumber and
    message: a body carrying any other key (a rating, isPublic, priority,
    tags, status...) is answered 400 and nothing is stored. *)
Theorem submit_unknown_key_refused (st : Store) (env : Env) (body : JObject) (k : string) (v : JVal) :
  In (k, v) body ->
  ~ In k ["name"; "email"; "contactNumber"; "message"] ->
  exists msg details, submit st env body = (BadRequest msg details, st).
Proof.
  intros Hin Hk. unfold submit.
  destruct (joi_validate true feedbackValidation body) as [w|e es] eqn:J.
  - exfalso. apply (joi_unknown_nonempty feedbackValidation body k v Hin).
    + unfold feedbackValidation. cbn [existsb jkey].
      destruct (String.eqb_spec "name" k); [subst; simpl in Hk; tauto|].
      destruct (String.eqb_spec "email" k); [subst; simpl in Hk; tauto|].
      destruct (String.eqb_spec "contactNumber" k); [subst; simpl in Hk; tauto|].
      destruct (String.eqb_spec "message" k); [subst; simpl in Hk; tauto|]. reflexivity.
    + exact (joi_validate_ok_unknown _ _ _ J).
  - do 2 eexists. reflexivity.
Qed.

Lemma submit_unknown_key_refused_witness :
  exists msg details,
    submit [] env0 (app body_ok [("rating", JNum 4)]) = (BadRequest msg details, []).
Proof.
  apply (submit_unknown_key_refused [] env0 (app body_ok [("rating", JNum 4)]) "rating" (JNum 4)).
  - apply in_or_app. right. left. reflexivity.
  - simpl. intros [H|[H|[H|[H|[]]]]]; discriminate H.
Defined.
